(** * The CEC initiator of the NPCX chip: bit-banging transmit state machine

    A shallow embedding of the CEC driver (the second unit of
    [src/unnamed/part_000]): the timing macros, the transfer cursor
    ([msgt_get_bit], [msgt_inc_bit], [msgt_is_eom]), the state entry
    actions ([enter_state]), the timer transition ([cec_event_timeout]),
    the interrupt routine ([cec_isr]) and the admission path
    ([cec_send], [hc_cec_write]).

    Conventions.
    - [uint8_t] and [uint32_t] values are integers of [Z]; every operation
      that can leave the range has its wrap-around written out
      ([mod 256], [mod 2^32]).  [int] is 32 bits wide, so an [int] literal
      meeting a [uint32_t] operand is computed as [uint32_t].
    - The module-level variables [cec_state], [cec_tx], [cec_events] and
      [apb1_freq_div_10k] are fields of one record that every function
      takes and returns.
    - The peripherals are recorded by what the driver writes to them: the
      level driven on the CEC pin, the count loaded into each of the two
      timers, and the events handed to the MKBP layer.  The level read back
      from the (open-drain) pin is an input of the functions that sample it. *)

From Stdlib Require Import ZArith List Bool Lia.
Import ListNotations.
Local Open Scope Z_scope.

(** ** Constants *)

(** Modelled from the spec: [MAX_CEC_MSG_LEN] is declared in
    [ec_commands.h], which is not part of the sources at hand; the
    specification fixes the capacity of the message buffer at 16 bytes. *)
Definition MAX_CEC_MSG_LEN : Z := 16.

(** Modelled from the spec: the two outcome flags [EC_MKBP_CEC_SEND_OK]
    and [EC_MKBP_CEC_SEND_FAILED] are declared in [ec_commands.h]; the
    specification describes them as two distinct bits of the pending
    event mask.  They are taken as bits 0 and 1; no property below
    depends on the choice. *)
Definition EC_MKBP_CEC_SEND_OK : Z := 1.
Definition EC_MKBP_CEC_SEND_FAILED : Z := 2.

(* CEC broadcast address. Also the highest possible CEC address *)
Definition CEC_BROADCAST_ADDR : Z := 15.

(* The CEC specification requires at least one and a maximum of five
   resend attempts *)
Definition CEC_MAX_RESENDS : Z := 5.

(** ** Machine integers *)

Definition u8 (x : Z) : Z := x mod 256.
Definition u32 (x : Z) : Z := x mod 2 ^ 32.

(** Conversion of a [uint32_t] value to [int] (two's complement). *)
Definition to_int (x : Z) : Z := if x <? 2 ^ 31 then x else x - 2 ^ 32.

(** C truth value of [!x]. *)
Definition lnot (x : Z) : Z := if x =? 0 then 1 else 0.

(** ** Timing table

    Every macro is a function of the clock basis [apb1_freq_div_10k]
    (a [uint32_t]). *)

Section Timing.

Variable basis : Z.

(* Time in us to timer clock ticks *)
Definition APB1_TICKS (t : Z) : Z := u32 (t * basis) / 100.

(* Free time timing (us). *)
Definition NOMINAL_BIT_TIME : Z := APB1_TICKS 2400.
Definition FREE_TIME_RS : Z := u32 (3 * NOMINAL_BIT_TIME). (* Resend *)
Definition FREE_TIME_NI : Z := u32 (5 * NOMINAL_BIT_TIME). (* New initiator *)

(* Start bit timing (us) *)
Definition START_BIT_LOW : Z := APB1_TICKS 3700.
Definition START_BIT_HIGH : Z := APB1_TICKS 800.

(* Data bit timing (us) *)
Definition DATA_ZERO_LOW : Z := APB1_TICKS 1500.
Definition DATA_ZERO_HIGH : Z := APB1_TICKS 900.
Definition DATA_ONE_LOW : Z := APB1_TICKS 600.
Definition DATA_ONE_HIGH : Z := APB1_TICKS 1800.

(* Time from low that it should be safe to sample an ACK *)
Definition NOMINAL_SAMPLE_TIME : Z := APB1_TICKS 1050.

(** [DATA_TIME(type, data)], at its two instances. *)
Definition DATA_HIGH (data : Z) : Z :=
  if negb (data =? 0) then DATA_ONE_HIGH else DATA_ZERO_HIGH.
Definition DATA_LOW (data : Z) : Z :=
  if negb (data =? 0) then DATA_ONE_LOW else DATA_ZERO_LOW.

(** The two timeouts that [enter_state] computes in place. *)
Definition ACK_HIGH_TIME : Z :=
  u32 (u32 (DATA_ONE_LOW + DATA_ZERO_LOW) / 2 - DATA_ONE_LOW).
Definition ACK_VERIFY_TIME : Z :=
  u32 (NOMINAL_BIT_TIME - NOMINAL_SAMPLE_TIME).

End Timing.

(** ** State *)

(* CEC state machine states. *)
Inductive enum_cec_state : Set :=
| CEC_STATE_IDLE
| CEC_STATE_INITIATOR_FREE_TIME
| CEC_STATE_INITIATOR_START_LOW
| CEC_STATE_INITIATOR_START_HIGH
| CEC_STATE_INITIATOR_HEADER_INIT_LOW
| CEC_STATE_INITIATOR_HEADER_INIT_HIGH
| CEC_STATE_INITIATOR_HEADER_DEST_LOW
| CEC_STATE_INITIATOR_HEADER_DEST_HIGH
| CEC_STATE_INITIATOR_DATA_LOW
| CEC_STATE_INITIATOR_DATA_HIGH
| CEC_STATE_INITIATOR_EOM_LOW
| CEC_STATE_INITIATOR_EOM_HIGH
| CEC_STATE_INITIATOR_ACK_LOW
| CEC_STATE_INITIATOR_ACK_HIGH
| CEC_STATE_INITIATOR_ACK_VERIFY.

(* CEC message during transfer *)
Record cec_msg_transfer : Set := Msgt {
  buf : list Z;   (* The CEC message, MAX_CEC_MSG_LEN bytes *)
  bit : Z;        (* Bit offset *)
  byte : Z        (* Byte offset *)
}.

(* Transfer buffer and states *)
Record struct_cec_tx : Set := Tx {
  msgt : cec_msg_transfer;  (* Outgoing message *)
  len : Z;                  (* Message length *)
  resends : Z;              (* Number of resends attempted in current send *)
  ack : Z                   (* Acknowledge received from sink? *)
}.

(** The module-level variables, followed by the peripherals. *)
Record cec : Set := Cec {
  cec_state : enum_cec_state;
  cec_tx : struct_cec_tx;
  cec_events : Z;            (* Events to send to AP *)
  apb1_freq_div_10k : Z;     (* APB1 frequency divided by 10k *)
  gpio_out : Z;              (* level last driven on CEC_GPIO_OUT *)
  tcnt1 : option Z;          (* count last loaded into timer 1, if any *)
  tcnt2 : option Z;          (* count of timer 2 while it runs *)
  mkbp : list Z              (* events passed to send_mkbp_event, in order *)
}.

Definition set_cec_state (st : enum_cec_state) (s : cec) : cec :=
  Cec st (cec_tx s) (cec_events s) (apb1_freq_div_10k s)
      (gpio_out s) (tcnt1 s) (tcnt2 s) (mkbp s).

Definition set_cec_tx (tx : struct_cec_tx) (s : cec) : cec :=
  Cec (cec_state s) tx (cec_events s) (apb1_freq_div_10k s)
      (gpio_out s) (tcnt1 s) (tcnt2 s) (mkbp s).

Definition set_msgt (m : cec_msg_transfer) (tx : struct_cec_tx) : struct_cec_tx :=
  Tx m (len tx) (resends tx) (ack tx).
Definition set_len (n : Z) (tx : struct_cec_tx) : struct_cec_tx :=
  Tx (msgt tx) n (resends tx) (ack tx).
Definition set_resends (n : Z) (tx : struct_cec_tx) : struct_cec_tx :=
  Tx (msgt tx) (len tx) n (ack tx).
Definition set_ack (a : Z) (tx : struct_cec_tx) : struct_cec_tx :=
  Tx (msgt tx) (len tx) (resends tx) a.

Definition set_buf (b : list Z) (m : cec_msg_transfer) : cec_msg_transfer :=
  Msgt b (bit m) (byte m).
Definition set_bit (b : Z) (m : cec_msg_transfer) : cec_msg_transfer :=
  Msgt (buf m) b (byte m).
Definition set_byte (b : Z) (m : cec_msg_transfer) : cec_msg_transfer :=
  Msgt (buf m) (bit m) b.

(** ** Peripherals *)

Definition gpio_set_level (level : Z) (s : cec) : cec :=
  Cec (cec_state s) (cec_tx s) (cec_events s) (apb1_freq_div_10k s)
      level (tcnt1 s) (tcnt2 s) (mkbp s).

Definition tmr_oneshot_start (timeout : Z) (s : cec) : cec :=
  Cec (cec_state s) (cec_tx s) (cec_events s) (apb1_freq_div_10k s)
      (gpio_out s) (Some timeout) (tcnt2 s) (mkbp s).

Definition tmr2_start (timeout : Z) (s : cec) : cec :=
  Cec (cec_state s) (cec_tx s) (cec_events s) (apb1_freq_div_10k s)
      (gpio_out s) (tcnt1 s) (Some timeout) (mkbp s).

Definition tmr2_stop (s : cec) : cec :=
  Cec (cec_state s) (cec_tx s) (cec_events s) (apb1_freq_div_10k s)
      (gpio_out s) (tcnt1 s) None (mkbp s).

(** [atomic_or(&cec_events, event); mkbp_send_event(EC_MKBP_EVENT_CEC)]. *)
Definition send_mkbp_event (event : Z) (s : cec) : cec :=
  Cec (cec_state s) (cec_tx s) (Z.lor (cec_events s) event)
      (apb1_freq_div_10k s) (gpio_out s) (tcnt1 s) (tcnt2 s)
      (mkbp s ++ [event]).

(** ** Transfer cursor *)

(** With a bit offset above 7 the shift count of [msgt_get_bit] is
    negative, which C leaves undefined ([Z.shiftl] then shifts to the
    right); no reachable state has such a cursor
    ([reachable_shift_defined]). *)
Definition msgt_get_bit (m : cec_msg_transfer) : Z :=
  if MAX_CEC_MSG_LEN <=? byte m then 0
  else Z.land (nth (Z.to_nat (byte m)) (buf m) 0) (Z.shiftl 1 (7 - bit m)).

Definition msgt_inc_bit (m : cec_msg_transfer) : cec_msg_transfer :=
  let m := set_bit (u8 (bit m + 1)) m in
  if bit m =? 8 then
    if MAX_CEC_MSG_LEN <=? byte m then m
    else
      let m := set_bit 0 m in
      set_byte (u8 (byte m + 1)) m
  else m.

Definition msgt_is_eom (m : cec_msg_transfer) (len : Z) : Z :=
  if negb (bit m =? 0) then 0
  else if byte m =? len then 1 else 0.

(** ** Entry actions *)

(** [line] is what [gpio_get_level(CEC_GPIO_OUT)] returns during this call. *)
Definition enter_state (line : Z) (new_state : enum_cec_state) (s : cec) : cec :=
  let s := set_cec_state new_state s in
  let basis := apb1_freq_div_10k s in
  let tx := cec_tx s in
  let '(gpio, timeout, s) :=
    match new_state with
    | CEC_STATE_IDLE =>
        let tx := set_msgt (set_bit 0 (msgt tx)) tx in
        let tx := set_msgt (set_byte 0 (msgt tx)) tx in
        (-1, -1, set_cec_tx tx s)
    | CEC_STATE_INITIATOR_FREE_TIME =>
        (1,
         if negb (resends tx =? 0) then to_int (FREE_TIME_RS basis)
         else to_int (FREE_TIME_NI basis),
         s)
    | CEC_STATE_INITIATOR_START_LOW =>
        let tx := set_msgt (set_bit 0 (msgt tx)) tx in
        let tx := set_msgt (set_byte 0 (msgt tx)) tx in
        (0, to_int (START_BIT_LOW basis), set_cec_tx tx s)
    | CEC_STATE_INITIATOR_START_HIGH =>
        (1, to_int (START_BIT_HIGH basis), s)
    | CEC_STATE_INITIATOR_HEADER_INIT_LOW
    | CEC_STATE_INITIATOR_HEADER_DEST_LOW
    | CEC_STATE_INITIATOR_DATA_LOW =>
        (0, to_int (DATA_LOW basis (msgt_get_bit (msgt tx))), s)
    | CEC_STATE_INITIATOR_HEADER_INIT_HIGH
    | CEC_STATE_INITIATOR_HEADER_DEST_HIGH
    | CEC_STATE_INITIATOR_DATA_HIGH =>
        (1, to_int (DATA_HIGH basis (msgt_get_bit (msgt tx))), s)
    | CEC_STATE_INITIATOR_EOM_LOW =>
        (0, to_int (DATA_LOW basis (msgt_is_eom (msgt tx) (len tx))), s)
    | CEC_STATE_INITIATOR_EOM_HIGH =>
        (1, to_int (DATA_HIGH basis (msgt_is_eom (msgt tx) (len tx))), s)
    | CEC_STATE_INITIATOR_ACK_LOW =>
        (0, to_int (DATA_LOW basis 1), s)
    | CEC_STATE_INITIATOR_ACK_HIGH =>
        (* Aim for the middle of the safe sample time *)
        (1, to_int (ACK_HIGH_TIME basis), s)
    | CEC_STATE_INITIATOR_ACK_VERIFY =>
        let tx := set_ack (lnot line) tx in
        let tx :=
          if Z.land (nth 0 (buf (msgt tx)) 0) 15 =? CEC_BROADCAST_ADDR
          then set_ack (lnot (ack tx)) tx
          else tx in
        (-1, to_int (ACK_VERIFY_TIME basis), set_cec_tx tx s)
    end in
  let s := if 0 <=? gpio then gpio_set_level gpio s else s in
  if 0 <=? timeout then tmr_oneshot_start timeout s else s.

(** ** Timer transition *)

Definition cec_event_timeout (line : Z) (s : cec) : cec :=
  match cec_state s with
  | CEC_STATE_IDLE => s
  | CEC_STATE_INITIATOR_FREE_TIME =>
      enter_state line CEC_STATE_INITIATOR_START_LOW s
  | CEC_STATE_INITIATOR_START_LOW =>
      enter_state line CEC_STATE_INITIATOR_START_HIGH s
  | CEC_STATE_INITIATOR_START_HIGH =>
      enter_state line CEC_STATE_INITIATOR_HEADER_INIT_LOW s
  | CEC_STATE_INITIATOR_HEADER_INIT_LOW =>
      enter_state line CEC_STATE_INITIATOR_HEADER_INIT_HIGH s
  | CEC_STATE_INITIATOR_HEADER_INIT_HIGH =>
      let s := set_cec_tx (set_msgt (msgt_inc_bit (msgt (cec_tx s))) (cec_tx s)) s in
      if bit (msgt (cec_tx s)) =? 4
      then enter_state line CEC_STATE_INITIATOR_HEADER_DEST_LOW s
      else enter_state line CEC_STATE_INITIATOR_HEADER_INIT_LOW s
  | CEC_STATE_INITIATOR_HEADER_DEST_LOW =>
      enter_state line CEC_STATE_INITIATOR_HEADER_DEST_HIGH s
  | CEC_STATE_INITIATOR_HEADER_DEST_HIGH =>
      let s := set_cec_tx (set_msgt (msgt_inc_bit (msgt (cec_tx s))) (cec_tx s)) s in
      if byte (msgt (cec_tx s)) =? 1
      then enter_state line CEC_STATE_INITIATOR_EOM_LOW s
      else enter_state line CEC_STATE_INITIATOR_HEADER_DEST_LOW s
  | CEC_STATE_INITIATOR_EOM_LOW =>
      enter_state line CEC_STATE_INITIATOR_EOM_HIGH s
  | CEC_STATE_INITIATOR_EOM_HIGH =>
      enter_state line CEC_STATE_INITIATOR_ACK_LOW s
  | CEC_STATE_INITIATOR_ACK_LOW =>
      enter_state line CEC_STATE_INITIATOR_ACK_HIGH s
  | CEC_STATE_INITIATOR_ACK_HIGH =>
      enter_state line CEC_STATE_INITIATOR_ACK_VERIFY s
  | CEC_STATE_INITIATOR_ACK_VERIFY =>
      if negb (ack (cec_tx s) =? 0) then
        if msgt_is_eom (msgt (cec_tx s)) (len (cec_tx s)) =? 0 then
          (* More data in this frame *)
          enter_state line CEC_STATE_INITIATOR_DATA_LOW s
        else
          (* Transfer completed successfully *)
          let s := set_cec_tx (set_len 0 (cec_tx s)) s in
          let s := set_cec_tx (set_resends 0 (cec_tx s)) s in
          let s := enter_state line CEC_STATE_IDLE s in
          send_mkbp_event EC_MKBP_CEC_SEND_OK s
      else
        if resends (cec_tx s) <? CEC_MAX_RESENDS then
          (* Resend *)
          let s := set_cec_tx (set_resends (u8 (resends (cec_tx s) + 1)) (cec_tx s)) s in
          enter_state line CEC_STATE_INITIATOR_FREE_TIME s
        else
          (* Transfer failed *)
          let s := set_cec_tx (set_len 0 (cec_tx s)) s in
          let s := set_cec_tx (set_resends 0 (cec_tx s)) s in
          let s := enter_state line CEC_STATE_IDLE s in
          send_mkbp_event EC_MKBP_CEC_SEND_FAILED s
  | CEC_STATE_INITIATOR_DATA_LOW =>
      enter_state line CEC_STATE_INITIATOR_DATA_HIGH s
  | CEC_STATE_INITIATOR_DATA_HIGH =>
      let s := set_cec_tx (set_msgt (msgt_inc_bit (msgt (cec_tx s))) (cec_tx s)) s in
      if bit (msgt (cec_tx s)) =? 0
      then enter_state line CEC_STATE_INITIATOR_EOM_LOW s
      else enter_state line CEC_STATE_INITIATOR_DATA_LOW s
  end.

Definition cec_event_tx (line : Z) (s : cec) : cec :=
  enter_state line CEC_STATE_INITIATOR_FREE_TIME s.

(** ** Interrupt routine

    [tcpnd] and [tdpnd] are the two pending bits that [cec_isr] tests in
    the event field of the timer: expiry of timer 1 (the bit timer) and
    expiry of timer 2 (the start trigger). *)
Definition cec_isr (tcpnd tdpnd : bool) (line : Z) (s : cec) : cec :=
  (* Timer event for bit-flipping *)
  let s := if tcpnd then cec_event_timeout line s else s in
  (* Oneshot timer, a transfer has been initiated from AP *)
  if tdpnd then cec_event_tx line (tmr2_stop s) else s.

(** ** Admission *)

(** [memcpy(dst, src, n)] on a destination of [length dst] bytes and a
    source of [length src] bytes; outside these bounds the C call has no
    defined result. *)
Definition memcpy (dst src : list Z) (n : Z) : option (list Z) :=
  if (n <=? Z.of_nat (length src)) && (n <=? Z.of_nat (length dst))
  then Some (firstn (Z.to_nat n) src ++ skipn (Z.to_nat n) dst)
  else None.

Definition cec_send (msg : list Z) (len_ : Z) (s : cec) : option (Z * cec) :=
  if negb (len (cec_tx s) =? 0) then Some (-1, s)
  else
    let s := set_cec_tx (set_len len_ (cec_tx s)) s in
    match memcpy (buf (msgt (cec_tx s))) msg len_ with
    | None => None
    | Some b =>
        let s := set_cec_tx (set_msgt (set_buf b (msgt (cec_tx s))) (cec_tx s)) s in
        (* Elevate to interrupt context *)
        let s := tmr2_start 0 s in
        Some (0, s)
    end.

(** Result codes of a host command ([ec_commands.h]). *)
Inductive ec_status : Set :=
| EC_RES_SUCCESS
| EC_RES_INVALID_PARAM
| EC_RES_BUSY.

(** [msg] is the parameter block of the host command: [params->msg] with
    [args->params_size = length msg]. *)
Definition hc_cec_write (msg : list Z) (s : cec) : option (ec_status * cec) :=
  let params_size := Z.of_nat (length msg) in
  if (params_size =? 0) || (MAX_CEC_MSG_LEN <? params_size)
  then Some (EC_RES_INVALID_PARAM, s)
  else
    match cec_send msg (u8 params_size) s with
    | None => None
    | Some (r, s) =>
        if negb (r =? 0) then Some (EC_RES_BUSY, s)
        else Some (EC_RES_SUCCESS, s)
    end.

(** ** Runs of the state machine *)

(** One timer expiry per element of [lines]; the element is the level of
    the CEC line during that expiry. *)
Fixpoint run (lines : list Z) (s : cec) : cec :=
  match lines with
  | [] => s
  | l :: ls => run ls (cec_event_timeout l s)
  end.

(** The states entered by the successive expiries of [run]. *)
Fixpoint states (lines : list Z) (s : cec) : list enum_cec_state :=
  match lines with
  | [] => []
  | l :: ls =>
      cec_state (cec_event_timeout l s) :: states ls (cec_event_timeout l s)
  end.

(** [cec_get_next_event]: [atomic_read_clear(&cec_events)]; the value
    read is what is copied to [out]. *)
Definition cec_get_next_event (s : cec) : Z * cec :=
  (cec_events s,
   Cec (cec_state s) (cec_tx s) 0 (apb1_freq_div_10k s)
       (gpio_out s) (tcnt1 s) (tcnt2 s) (mkbp s)).

(** [cec_init], as far as the module-level variables go: [freq] is what
    [clock_get_apb1_freq()] returns.  The division is that of C
    (truncating) and its result is stored in a [uint32_t]. *)
Definition cec_init (freq : Z) (s : cec) : cec :=
  Cec (cec_state s) (cec_tx s) (cec_events s) (u32 (Z.quot freq 10000))
      (gpio_out s) (tcnt1 s) (tcnt2 s) (mkbp s).

(** Admission of a message followed by the interrupt of the start
    trigger (timer 2), which [cec_send] has armed. *)
Definition start_transfer (msg : list Z) (line : Z) (s : cec) : option cec :=
  match hc_cec_write msg s with
  | Some (EC_RES_SUCCESS, s) => Some (cec_isr false true line s)
  | _ => None
  end.

(** ** Vocabulary of the properties *)

(** Destination nibble of the header byte. *)
Definition destination (tx : struct_cec_tx) : Z :=
  Z.land (nth 0 (buf (msgt tx)) 0) 15.

(** The line level that counts as an acknowledgment of the frame held
    in [tx]: low for a direct address, high for the broadcast address. *)
Definition acknowledged (tx : struct_cec_tx) (line : Z) : Prop :=
  if destination tx =? CEC_BROADCAST_ADDR then line <> 0 else line = 0.

Definition refused (tx : struct_cec_tx) (line : Z) : Prop :=
  if destination tx =? CEC_BROADCAST_ADDR then line = 0 else line <> 0.

(** Every ACK sample of a run satisfies [P]: the line is sampled by the
    expiry that leaves [CEC_STATE_INITIATOR_ACK_HIGH]. *)
Fixpoint all_acks (P : struct_cec_tx -> Z -> Prop) (lines : list Z) (s : cec)
  : Prop :=
  match lines with
  | [] => True
  | l :: ls =>
      (cec_state s = CEC_STATE_INITIATOR_ACK_HIGH -> P (cec_tx s) l)
      /\ all_acks P ls (cec_event_timeout l s)
  end.

(** No transfer in progress. *)
Definition idle (s : cec) : Prop :=
  cec_state s = CEC_STATE_IDLE
  /\ len (cec_tx s) = 0
  /\ resends (cec_tx s) = 0
  /\ length (buf (msgt (cec_tx s))) = Z.to_nat MAX_CEC_MSG_LEN.

(** State sequence of the start bit, the header block and its EOM and
    ACK bits, up to the sample point. *)
Definition header_states : list enum_cec_state :=
  [CEC_STATE_INITIATOR_START_LOW; CEC_STATE_INITIATOR_START_HIGH]
  ++ concat (repeat [CEC_STATE_INITIATOR_HEADER_INIT_LOW;
                     CEC_STATE_INITIATOR_HEADER_INIT_HIGH] 4)
  ++ concat (repeat [CEC_STATE_INITIATOR_HEADER_DEST_LOW;
                     CEC_STATE_INITIATOR_HEADER_DEST_HIGH] 4)
  ++ [CEC_STATE_INITIATOR_EOM_LOW; CEC_STATE_INITIATOR_EOM_HIGH;
      CEC_STATE_INITIATOR_ACK_LOW; CEC_STATE_INITIATOR_ACK_HIGH].

(** State sequence of one data block up to the sample point. *)
Definition data_states : list enum_cec_state :=
  concat (repeat [CEC_STATE_INITIATOR_DATA_LOW;
                  CEC_STATE_INITIATOR_DATA_HIGH] 8)
  ++ [CEC_STATE_INITIATOR_EOM_LOW; CEC_STATE_INITIATOR_EOM_HIGH;
      CEC_STATE_INITIATOR_ACK_LOW; CEC_STATE_INITIATOR_ACK_HIGH].

(** State sequence of an acknowledged transfer of [n] bytes. *)
Definition ok_states (n : nat) : list enum_cec_state :=
  header_states
  ++ concat (repeat (CEC_STATE_INITIATOR_ACK_VERIFY :: data_states) (n - 1))
  ++ [CEC_STATE_INITIATOR_ACK_VERIFY; CEC_STATE_IDLE].


Definition enum_cec_state_eq_dec (a b : enum_cec_state) : {a = b} + {a <> b}.
Proof. decide equality. Defined.

(** Number of frames in a state sequence: every frame has one start bit. *)
Definition frames (l : list enum_cec_state) : nat :=
  count_occ enum_cec_state_eq_dec l CEC_STATE_INITIATOR_START_LOW.

(** ** Reachable states *)

(** After reset: the module-level variables are zero and both timers are
    stopped; [cec_init] has stored some clock basis. *)
Definition initial (s : cec) : Prop :=
  cec_state s = CEC_STATE_IDLE
  /\ cec_tx s = Tx (Msgt (repeat 0 (Z.to_nat MAX_CEC_MSG_LEN)) 0 0) 0 0 0
  /\ cec_events s = 0
  /\ tcnt2 s = None
  /\ mkbp s = [].

(** The entry points of the driver, in any order.  Timer 2 raises its
    interrupt only while it runs. *)
Inductive reachable : cec -> Prop :=
| reach_init s : initial s -> reachable s
| reach_isr s tcpnd tdpnd line :
    reachable s ->
    (tdpnd = true -> tcnt2 s <> None) ->
    reachable (cec_isr tcpnd tdpnd line s)
| reach_write s msg r s' :
    reachable s ->
    hc_cec_write msg s = Some (r, s') ->
    reachable s'
| reach_next_event s :
    reachable s ->
    reachable (snd (cec_get_next_event s)).

(** What the cursor can be in each state. *)
Definition cursor_inv (s : cec) : Prop :=
  let tx := cec_tx s in
  let m := msgt tx in
  length (buf m) = Z.to_nat MAX_CEC_MSG_LEN
  /\ 0 <= len tx <= MAX_CEC_MSG_LEN
  /\ 0 <= resends tx <= CEC_MAX_RESENDS
  /\ (tcnt2 s <> None -> cec_state s = CEC_STATE_IDLE /\ len tx <> 0)
  /\ match cec_state s with
     | CEC_STATE_IDLE => bit m = 0 /\ byte m = 0 /\ resends tx = 0
     | CEC_STATE_INITIATOR_FREE_TIME =>
         1 <= len tx /\ bit m = 0 /\ 0 <= byte m <= len tx
     | CEC_STATE_INITIATOR_START_LOW
     | CEC_STATE_INITIATOR_START_HIGH =>
         1 <= len tx /\ bit m = 0 /\ byte m = 0
     | CEC_STATE_INITIATOR_HEADER_INIT_LOW
     | CEC_STATE_INITIATOR_HEADER_INIT_HIGH =>
         1 <= len tx /\ 0 <= bit m < 4 /\ byte m = 0
     | CEC_STATE_INITIATOR_HEADER_DEST_LOW
     | CEC_STATE_INITIATOR_HEADER_DEST_HIGH =>
         1 <= len tx /\ 4 <= bit m < 8 /\ byte m = 0
     | CEC_STATE_INITIATOR_DATA_LOW
     | CEC_STATE_INITIATOR_DATA_HIGH =>
         0 <= bit m < 8 /\ 1 <= byte m < len tx
     | CEC_STATE_INITIATOR_EOM_LOW
     | CEC_STATE_INITIATOR_EOM_HIGH
     | CEC_STATE_INITIATOR_ACK_LOW
     | CEC_STATE_INITIATOR_ACK_HIGH
     | CEC_STATE_INITIATOR_ACK_VERIFY =>
         bit m = 0 /\ 1 <= byte m <= len tx
     end.

(** The part of an entry action that falls on [cec_tx]. *)
Definition entry_tx (line : Z) (new_state : enum_cec_state) (tx : struct_cec_tx)
  : struct_cec_tx :=
  match new_state with
  | CEC_STATE_IDLE | CEC_STATE_INITIATOR_START_LOW =>
      Tx (Msgt (buf (msgt tx)) 0 0) (len tx) (resends tx) (ack tx)
  | CEC_STATE_INITIATOR_ACK_VERIFY =>
      Tx (msgt tx) (len tx) (resends tx)
         (if destination tx =? CEC_BROADCAST_ADDR
          then lnot (lnot line) else lnot line)
  | _ => tx
  end.

(** The tick computation as the specification words it, for comparison
    with [APB1_TICKS]. *)
Definition spec_ticks (basis us : Z) : Z := us * basis / 10000.

(** The state after reset with clock basis [b]. *)
Definition boot (b : Z) : cec :=
  Cec CEC_STATE_IDLE
      (Tx (Msgt (repeat 0 (Z.to_nat MAX_CEC_MSG_LEN)) 0 0) 0 0 0)
      0 b 0 None None [].

(** A two-byte transfer that is acknowledged, then the admission of a
    one-byte message and the transmission of its header block. *)
Definition second_transfer : option cec :=
  match start_transfer [64; 255] 0 (boot 1500) with
  | Some s1 =>
      match start_transfer [64] 0 (run (repeat 0 45%nat) s1) with
      | Some s2 => Some (run (repeat 0 19%nat) s2)
      | None => None
      end
  | None => None
  end.

(** The state in which the last bit of the header of the two-byte
    message [64; 1] is being sent. *)
Definition header_last_bit : cec :=
  match start_transfer [64; 1] 0 (boot 1500) with
  | Some s1 => run (repeat 0 17%nat) s1
  | None => boot 1500
  end.

(** ** Wave form of a state *)

(** A clock basis for which no product of the timing table wraps. *)
Definition in_range (b : Z) : Prop := 0 < b /\ 3700 * b < 2 ^ 32.

(** The level at which each state holds the line: the one its entry
    action drives, or, for the verification state, the one left by the
    high half of the ACK bit. *)
Definition pin_of (st : enum_cec_state) : option Z :=
  match st with
  | CEC_STATE_IDLE => None
  | CEC_STATE_INITIATOR_START_LOW
  | CEC_STATE_INITIATOR_HEADER_INIT_LOW
  | CEC_STATE_INITIATOR_HEADER_DEST_LOW
  | CEC_STATE_INITIATOR_DATA_LOW
  | CEC_STATE_INITIATOR_EOM_LOW
  | CEC_STATE_INITIATOR_ACK_LOW => Some 0
  | CEC_STATE_INITIATOR_FREE_TIME
  | CEC_STATE_INITIATOR_START_HIGH
  | CEC_STATE_INITIATOR_HEADER_INIT_HIGH
  | CEC_STATE_INITIATOR_HEADER_DEST_HIGH
  | CEC_STATE_INITIATOR_DATA_HIGH
  | CEC_STATE_INITIATOR_EOM_HIGH
  | CEC_STATE_INITIATOR_ACK_HIGH
  | CEC_STATE_INITIATOR_ACK_VERIFY => Some 1
  end.

(** The duration of each state, as its entry action computes it. *)
Definition ticks_of (basis : Z) (st : enum_cec_state) (tx : struct_cec_tx)
  : option Z :=
  match st with
  | CEC_STATE_IDLE => None
  | CEC_STATE_INITIATOR_FREE_TIME =>
      Some (if negb (resends tx =? 0) then FREE_TIME_RS basis
            else FREE_TIME_NI basis)
  | CEC_STATE_INITIATOR_START_LOW => Some (START_BIT_LOW basis)
  | CEC_STATE_INITIATOR_START_HIGH => Some (START_BIT_HIGH basis)
  | CEC_STATE_INITIATOR_HEADER_INIT_LOW
  | CEC_STATE_INITIATOR_HEADER_DEST_LOW
  | CEC_STATE_INITIATOR_DATA_LOW =>
      Some (DATA_LOW basis (msgt_get_bit (msgt tx)))
  | CEC_STATE_INITIATOR_HEADER_INIT_HIGH
  | CEC_STATE_INITIATOR_HEADER_DEST_HIGH
  | CEC_STATE_INITIATOR_DATA_HIGH =>
      Some (DATA_HIGH basis (msgt_get_bit (msgt tx)))
  | CEC_STATE_INITIATOR_EOM_LOW =>
      Some (DATA_LOW basis (msgt_is_eom (msgt tx) (len tx)))
  | CEC_STATE_INITIATOR_EOM_HIGH =>
      Some (DATA_HIGH basis (msgt_is_eom (msgt tx) (len tx)))
  | CEC_STATE_INITIATOR_ACK_LOW => Some (DATA_LOW basis 1)
  | CEC_STATE_INITIATOR_ACK_HIGH => Some (ACK_HIGH_TIME basis)
  | CEC_STATE_INITIATOR_ACK_VERIFY => Some (ACK_VERIFY_TIME basis)
  end.

(** Pin and timer 1 agree with the state the machine is in. *)
Definition wave_inv (s : cec) : Prop :=
  cec_state s <> CEC_STATE_IDLE ->
  pin_of (cec_state s) = Some (gpio_out s)
  /\ ticks_of (apb1_freq_div_10k s) (cec_state s) (cec_tx s) = tcnt1 s.

(** The byte under the cursor. *)
Definition current_byte (m : cec_msg_transfer) : Z :=
  nth (Z.to_nat (byte m)) (buf m) 0.

(** The states in which a bit of the message is on the line. *)
Definition sends_low (st : enum_cec_state) : bool :=
  match st with
  | CEC_STATE_INITIATOR_HEADER_INIT_LOW
  | CEC_STATE_INITIATOR_HEADER_DEST_LOW
  | CEC_STATE_INITIATOR_DATA_LOW => true
  | _ => false
  end.

Definition sends_high (st : enum_cec_state) : bool :=
  match st with
  | CEC_STATE_INITIATOR_HEADER_INIT_HIGH
  | CEC_STATE_INITIATOR_HEADER_DEST_HIGH
  | CEC_STATE_INITIATOR_DATA_HIGH => true
  | _ => false
  end.

(** ** Board: wake events (first unit of [src/unnamed/part_000])

    [power_button_mask] stands for
    [EC_HOST_EVENT_MASK(EC_HOST_EVENT_POWER_BUTTON)], a macro of
    [ec_commands.h]; the result is the level that the function drives on
    [GPIO_PCH_WAKE_L].  Both operands are [uint32_t]. *)
Definition board_process_wake_events (power_button_mask : Z)
  (active_wake_events : Z) : Z :=
  (* If there are other events aside from the power button press drive
     the wake pin. Otherwise ensure it is high. *)
  if negb (Z.land active_wake_events (u32 (Z.lnot power_button_mask)) =? 0)
  then 0
  else 1.

(** The verification state that ends the acknowledged transfer of the
    two-byte message [64; 1]. *)
Definition last_verify : cec :=
  match start_transfer [64; 1] 0 (boot 1500) with
  | Some s1 => run (repeat 0 44%nat) s1
  | None => boot 1500
  end.

(** ** Port 80 history ([src/common/port80.c])

    The module keeps the last bytes written to port 80 in a ring of
    [HISTORY_LEN] bytes.  [writes] and [scroll] are [int]; an index
    [x % ARRAY_SIZE(history)] is computed in [size_t], that is on the
    [uint32_t] value of [x].  What the functions print is recorded, in
    order, in [console]. *)

Definition HISTORY_LEN : Z := 16.

(** Modelled from the spec: [EC_SUCCESS] is declared in [common.h], which
    is not part of the sources at hand; it is the zero of the error
    codes. *)
Definition EC_SUCCESS : Z := 0.

Inductive console_out : Set :=
| Port80Line (lead : Z) (data : Z)  (* "%c[%T Port 80: 0x%02x]" *)
| ScrollLine (enabled : bool)       (* "scroll %sabled\n" *)
| HexByte (value : Z)               (* " %02x" *)
| NewMark.                          (* " <--new\n" *)

Record port80 : Set := Port80 {
  history : list Z;           (* uint8_t history[HISTORY_LEN] *)
  writes : Z;                 (* Number of port 80 writes so far *)
  scroll : Z;
  console : list console_out
}.

(** [l[i] = v]; the index is within the array at every use below. *)
Fixpoint store (i : nat) (v : Z) (l : list Z) : list Z :=
  match l, i with
  | [], _ => []
  | _ :: r, O => v :: r
  | x :: r, S i' => x :: store i' v r
  end.

Definition port_80_write (data : Z) (p : port80) : port80 :=
  let out := Port80Line (if negb (scroll p =? 0) then 10 else 13) data in
  let h := store (Z.to_nat (u32 (writes p) mod HISTORY_LEN)) (u8 data)
                 (history p) in
  Port80 h (to_int (u32 (writes p + 1))) (scroll p) (console p ++ [out]).

(** The printing loop of [command_port80]: [for (i = tail; i < head; i++)],
    which runs [head - tail] times when [tail < head]. *)
Fixpoint print_history (n : nat) (i head : Z) (h : list Z)
  : list console_out :=
  match n with
  | O => []
  | S n' =>
      if i <? head
      then HexByte (nth (Z.to_nat (u32 i mod HISTORY_LEN)) h 0)
           :: print_history n' (i + 1) head h
      else []
  end.

(** The character codes of the literal "scroll". *)
Definition scroll_word : list Z := [115; 99; 114; 111; 108; 108].

(** [strcasecmp] is a function of [util.c], which is not part of the
    sources at hand: it is a parameter of the command.  Strings are lists
    of character codes and [argv] holds the [argc] arguments. *)
Definition command_port80 (strcasecmp : list Z -> list Z -> Z)
  (argv : list (list Z)) (p : port80) : Z * port80 :=
  let argc := Z.of_nat (length argv) in
  if (1 <? argc) && (strcasecmp (nth 1 argv []) scroll_word =? 0) then
    let sc := lnot (scroll p) in
    (EC_SUCCESS,
     Port80 (history p) (writes p) sc
            (console p ++ [ScrollLine (negb (sc =? 0))]))
  else
    let head := writes p in
    let tail :=
      if HISTORY_LEN <? u32 head then to_int (u32 (u32 head - HISTORY_LEN))
      else 0 in
    (EC_SUCCESS,
     Port80 (history p) (writes p) (scroll p)
            (console p
             ++ print_history (Z.to_nat (head - tail)) tail head (history p)
             ++ [NewMark])).

(** The module before any write. *)
Definition port80_reset : port80 :=
  Port80 (repeat 0 (Z.to_nat HISTORY_LEN)) 0 0 [].

(** Successive writes of the bytes of [ds]. *)
Definition port_80_writes (ds : list Z) (p : port80) : port80 :=
  fold_left (fun p d => port_80_write d p) ds p.

(** * Properties *)

(** ** Timing table *)

Lemma u32_small x : 0 <= x < 2 ^ 32 -> u32 x = x.
Proof. intros H. unfold u32. now apply Z.mod_small. Qed.

Lemma u32_range x : 0 <= u32 x < 2 ^ 32.
Proof. unfold u32. apply Z.mod_pos_bound. lia. Qed.

(** Without wrap-around a multiple of 100 us is converted exactly. *)
Lemma APB1_TICKS_exact basis k :
  0 <= k -> 0 <= basis -> 100 * k * basis < 2 ^ 32 ->
  APB1_TICKS basis (100 * k) = k * basis.
Proof.
  intros Hk Hb Hfit. unfold APB1_TICKS.
  rewrite u32_small by nia.
  replace (100 * k * basis) with (k * basis * 100) by ring.
  apply Z.div_mul. lia.
Qed.

Lemma APB1_TICKS_bound basis t : 0 <= APB1_TICKS basis t <= 42949672.
Proof.
  unfold APB1_TICKS. pose proof (u32_range (t * basis)) as H.
  split.
  - apply Z.div_pos; lia.
  - enough (u32 (t * basis) / 100 < 42949673) by lia.
    apply Z.div_lt_upper_bound; lia.
Qed.

Lemma to_int_small x : 0 <= x < 2 ^ 31 -> to_int x = x.
Proof.
  intros H. unfold to_int.
  destruct (Z.ltb_spec x (2 ^ 31)); lia.
Qed.

(** The free time, a small multiple of a bounded tick count, is never
    negative as an [int]. *)
Lemma FREE_TIME_int basis :
  to_int (FREE_TIME_RS basis) = FREE_TIME_RS basis
  /\ 0 <= FREE_TIME_RS basis
  /\ to_int (FREE_TIME_NI basis) = FREE_TIME_NI basis
  /\ 0 <= FREE_TIME_NI basis.
Proof.
  unfold FREE_TIME_RS, FREE_TIME_NI, NOMINAL_BIT_TIME.
  pose proof (APB1_TICKS_bound basis 2400) as H.
  rewrite !u32_small by lia.
  rewrite !to_int_small by lia. lia.
Qed.

(** A clock rate that an [int] holds, from 10 kHz on, gives a clock
    basis for which no product of the timing table wraps around. *)
Lemma cec_init_basis (freq : Z) (s : cec) :
  10000 <= freq < 2 ^ 31 ->
  apb1_freq_div_10k (cec_init freq s) = freq / 10000
  /\ 0 < apb1_freq_div_10k (cec_init freq s)
  /\ 3700 * apb1_freq_div_10k (cec_init freq s) < 2 ^ 32.
Proof.
  intros H. cbn [cec_init apb1_freq_div_10k].
  rewrite Z.quot_div_nonneg by lia.
  assert (1 <= freq / 10000) by (apply Z.div_le_lower_bound; lia).
  assert (freq / 10000 < 214749) by (apply Z.div_lt_upper_bound; lia).
  rewrite u32_small by lia. lia.
Qed.

(** The formula of the code is not the one the specification words:
    the divisor is 100. *)
Lemma APB1_TICKS_is_not_spec_ticks :
  APB1_TICKS 100 600 = 600 /\ spec_ticks 100 600 = 6.
Proof. split; reflexivity. Qed.

(** C8, as stated, fails: with a clock basis of zero every duration is
    zero, so the low phase of a one is not shorter than that of a zero. *)
Lemma data_timing_order_fails_at_zero :
  ~ (DATA_LOW 0 1 < DATA_LOW 0 0 /\ DATA_HIGH 0 1 > DATA_HIGH 0 0).
Proof. vm_compute. intros [H _]. discriminate H. Qed.

(** C8 (amended): for every clock basis [b] with [0 < b] and
    [1800 * b < 2^32] (no wrap-around of the 32-bit product), under the
    truncating computation ticks = (microseconds * b mod 2^32) / 100, the
    low phase of a data one (600 us) is strictly shorter than that of a
    data zero (1500 us), and its high phase (1800 us) strictly longer
    (900 us). *)
Theorem data_timing_order (b : Z) (Hpos : 0 < b) (Hfit : 1800 * b < 2 ^ 32) :
  DATA_LOW b 1 < DATA_LOW b 0 /\ DATA_HIGH b 1 > DATA_HIGH b 0
  /\ DATA_LOW b 1 = APB1_TICKS b 600 /\ DATA_LOW b 0 = APB1_TICKS b 1500
  /\ DATA_HIGH b 1 = APB1_TICKS b 1800 /\ DATA_HIGH b 0 = APB1_TICKS b 900
  /\ (forall us, APB1_TICKS b us = (us * b mod 2 ^ 32) / 100).
Proof.
  assert (E600 : APB1_TICKS b 600 = 6 * b)
    by (apply (APB1_TICKS_exact b 6); lia).
  assert (E1500 : APB1_TICKS b 1500 = 15 * b)
    by (apply (APB1_TICKS_exact b 15); lia).
  assert (E1800 : APB1_TICKS b 1800 = 18 * b)
    by (apply (APB1_TICKS_exact b 18); lia).
  assert (E900 : APB1_TICKS b 900 = 9 * b)
    by (apply (APB1_TICKS_exact b 9); lia).
  unfold DATA_LOW, DATA_HIGH, DATA_ONE_LOW, DATA_ZERO_LOW,
    DATA_ONE_HIGH, DATA_ZERO_HIGH.
  cbn [Z.eqb negb].
  rewrite E600, E1500, E1800, E900.
  repeat split; try lia.
Qed.

Lemma data_timing_order_witness :
  DATA_LOW 1500 1 < DATA_LOW 1500 0 /\ DATA_HIGH 1500 1 > DATA_HIGH 1500 0.
Proof.
  pose proof (data_timing_order 1500 ltac:(lia) ltac:(lia)) as H.
  split; apply H.
Defined.

(** ** Free time *)

(** The order of the two free times depends on the clock basis being one
    that [cec_init] stores: at [2^27], which no frequency gives, the
    product [2400 * 2^27] wraps to zero and both free times are zero. *)
Lemma free_time_order_fails_on_wrap :
  0 < 2 ^ 27 < 2 ^ 32
  /\ ~ (FREE_TIME_RS (2 ^ 27) < FREE_TIME_NI (2 ^ 27)).
Proof. vm_compute. split; [split; reflexivity | discriminate]. Qed.

(** Entry to the free-time state with a clock basis [b] such that
    [0 < b] and [2400 * b < 2^32] (no wrap-around of the 32-bit product):
    the line is driven high, the one-shot timer is armed with the
    new-initiator free time when the resend counter is 0 and with the
    resend free time otherwise, and the nominal bit time is exactly
    [24 * b]. *)
Theorem free_time_entry (line : Z) (s : cec)
  (Hpos : 0 < apb1_freq_div_10k s)
  (Hfit : 2400 * apb1_freq_div_10k s < 2 ^ 32) :
  let b := apb1_freq_div_10k s in
  let s' := enter_state line CEC_STATE_INITIATOR_FREE_TIME s in
  cec_state s' = CEC_STATE_INITIATOR_FREE_TIME
  /\ gpio_out s' = 1
  /\ tcnt1 s' = Some (if resends (cec_tx s) =? 0
                      then FREE_TIME_NI b else FREE_TIME_RS b)
  /\ FREE_TIME_RS b = 3 * NOMINAL_BIT_TIME b
  /\ FREE_TIME_NI b = 5 * NOMINAL_BIT_TIME b
  /\ NOMINAL_BIT_TIME b = 24 * b
  /\ FREE_TIME_RS b < FREE_TIME_NI b.
Proof.
  intros b s'. subst s'. fold b in Hpos, Hfit.
  destruct (FREE_TIME_int b) as (Ers & Prs & Eni & Pni).
  assert (Enbt : NOMINAL_BIT_TIME b = 24 * b)
    by (apply (APB1_TICKS_exact b 24); lia).
  assert (Hrs : FREE_TIME_RS b = 3 * NOMINAL_BIT_TIME b)
    by (unfold FREE_TIME_RS; rewrite Enbt; apply u32_small; lia).
  assert (Hni : FREE_TIME_NI b = 5 * NOMINAL_BIT_TIME b)
    by (unfold FREE_TIME_NI; rewrite Enbt; apply u32_small; lia).
  unfold enter_state.
  cbn [set_cec_state apb1_freq_div_10k cec_tx]. fold b.
  destruct (resends (cec_tx s) =? 0); cbn [negb]; rewrite ?Ers, ?Eni;
    cbn [Z.leb Z.compare];
    [ destruct (Z.leb_spec 0 (FREE_TIME_NI b)) as [_|C]; [|lia]
    | destruct (Z.leb_spec 0 (FREE_TIME_RS b)) as [_|C]; [|lia] ];
    cbn [tmr_oneshot_start gpio_set_level cec_state gpio_out tcnt1];
    repeat split; try assumption; lia.
Qed.

(** The timer is armed on entry to the free-time state whatever the
    clock basis. *)
Lemma free_time_entry_arms (line : Z) (s : cec) :
  tcnt1 (enter_state line CEC_STATE_INITIATOR_FREE_TIME s)
  = Some (if resends (cec_tx s) =? 0
          then FREE_TIME_NI (apb1_freq_div_10k s)
          else FREE_TIME_RS (apb1_freq_div_10k s)).
Proof.
  destruct (FREE_TIME_int (apb1_freq_div_10k s)) as (Ers & Prs & Eni & Pni).
  unfold enter_state.
  cbn [set_cec_state apb1_freq_div_10k cec_tx].
  destruct (resends (cec_tx s) =? 0); cbn [negb]; rewrite ?Ers, ?Eni;
    cbn [Z.leb Z.compare];
    [ destruct (Z.leb_spec 0 (FREE_TIME_NI (apb1_freq_div_10k s))) as [_|C]; [|lia]
    | destruct (Z.leb_spec 0 (FREE_TIME_RS (apb1_freq_div_10k s))) as [_|C]; [|lia] ];
    reflexivity.
Qed.

Lemma free_time_entry_witness :
  let s := Cec CEC_STATE_IDLE (Tx (Msgt (repeat 0 16%nat) 0 0) 1 0 0)
               0 1500 1 None None [] in
  tcnt1 (enter_state 1 CEC_STATE_INITIATOR_FREE_TIME s) = Some 180000
  /\ FREE_TIME_RS 1500 < FREE_TIME_NI 1500.
Proof.
  intros s.
  pose proof (free_time_entry 1 s ltac:(cbn; lia) ltac:(cbn; lia)) as H.
  cbn zeta in H. split; [reflexivity | apply H].
Defined.

(** ** Entry actions, seen from the module-level variables *)

(** An entry action writes the pin and timer 1 and, of the variables,
    [cec_state] and the part of [cec_tx] given by [entry_tx]. *)
Lemma enter_state_soft line X s :
  exists g t,
    enter_state line X s
    = Cec X (entry_tx line X (cec_tx s)) (cec_events s) (apb1_freq_div_10k s)
          g t (tcnt2 s) (mkbp s).
Proof.
  destruct s as [st [[bf bi by_] ln rs ak] ev b g t t2 log].
  unfold enter_state, entry_tx, destination.
  destruct X; cbn -[Z.leb to_int];
    repeat match goal with
      | |- context [if ?c then _ else _] => destruct c
      end; do 2 eexists; reflexivity.
Qed.

Lemma enter_state_cec_state line X s : cec_state (enter_state line X s) = X.
Proof. destruct (enter_state_soft line X s) as (g & t & ->). reflexivity. Qed.

Lemma enter_state_cec_tx line X s :
  cec_tx (enter_state line X s) = entry_tx line X (cec_tx s).
Proof. destruct (enter_state_soft line X s) as (g & t & ->). reflexivity. Qed.

(** ** Acknowledgment polarity *)

Lemma lnot_lnot x : lnot (lnot x) = if x =? 0 then 0 else 1.
Proof. unfold lnot. destruct (x =? 0); reflexivity. Qed.

(** C3: the entry action of [CEC_STATE_INITIATOR_ACK_VERIFY] records, for
    a header whose destination nibble is the broadcast address 15, a low
    line as failure ([ack = 0]) and a high line as success ([ack = 1]);
    for any other destination, a low line as success and a high line as
    failure.  The rest of [cec_tx] is left as it is. *)
Theorem ack_verify_polarity (line : Z) (s : cec) :
  let s' := enter_state line CEC_STATE_INITIATOR_ACK_VERIFY s in
  cec_state s' = CEC_STATE_INITIATOR_ACK_VERIFY
  /\ ack (cec_tx s')
     = (if Z.land (nth 0 (buf (msgt (cec_tx s))) 0) 15 =? 15
        then (if line =? 0 then 0 else 1)
        else (if line =? 0 then 1 else 0))
  /\ msgt (cec_tx s') = msgt (cec_tx s)
  /\ len (cec_tx s') = len (cec_tx s)
  /\ resends (cec_tx s') = resends (cec_tx s).
Proof.
  cbn zeta. rewrite enter_state_cec_state, enter_state_cec_tx.
  cbn [entry_tx ack msgt len resends].
  rewrite lnot_lnot. unfold destination, CEC_BROADCAST_ADDR, lnot.
  repeat split; reflexivity.
Qed.

(** The recorded flag is non-zero exactly on the acknowledging level. *)
Lemma ack_recorded line tx :
  (acknowledged tx line ->
   ack (entry_tx line CEC_STATE_INITIATOR_ACK_VERIFY tx) = 1)
  /\ (refused tx line ->
      ack (entry_tx line CEC_STATE_INITIATOR_ACK_VERIFY tx) = 0).
Proof.
  unfold acknowledged, refused. cbn [entry_tx ack].
  rewrite lnot_lnot. unfold lnot.
  destruct (destination tx =? CEC_BROADCAST_ADDR);
    destruct (Z.eqb_spec line 0); split; intros H; congruence.
Qed.

(** ** Transfer cursor *)

(** C5, as stated, fails: with a declared length of 1 and the cursor at
    byte offset 1, a buffer that still holds 255 at offset 1 makes the
    current-bit read return 128. *)
Lemma msgt_get_bit_reads_past_length :
  let m := Msgt (64 :: 255 :: repeat 0 14%nat) 0 1 in
  let declared_len := 1 in
  declared_len <= byte m /\ msgt_get_bit m <> 0.
Proof. vm_compute. split; discriminate. Qed.

(** C5 (amended): for every cursor whose byte offset is greater than or
    equal to the buffer capacity [MAX_CEC_MSG_LEN] (16), the current-bit
    read returns 0, whatever the buffer holds and whatever the bit
    offset is. *)
Theorem msgt_get_bit_beyond_capacity (m : cec_msg_transfer)
  (Hcap : MAX_CEC_MSG_LEN <= byte m) :
  msgt_get_bit m = 0.
Proof.
  unfold msgt_get_bit.
  destruct (Z.leb_spec MAX_CEC_MSG_LEN (byte m)); [reflexivity | lia].
Qed.

Lemma msgt_get_bit_beyond_capacity_witness :
  msgt_get_bit (Msgt (repeat 255 16%nat) 3 16) = 0.
Proof.
  apply (msgt_get_bit_beyond_capacity (Msgt (repeat 255 16%nat) 3 16)).
  vm_compute. discriminate.
Defined.

(** Below the capacity the read returns the addressed bit of the buffer,
    whatever the declared length. *)
Lemma msgt_get_bit_below_capacity (m : cec_msg_transfer) :
  byte m < MAX_CEC_MSG_LEN ->
  msgt_get_bit m
  = Z.land (nth (Z.to_nat (byte m)) (buf m) 0) (Z.shiftl 1 (7 - bit m)).
Proof.
  intros H. unfold msgt_get_bit.
  destruct (Z.leb_spec MAX_CEC_MSG_LEN (byte m)); [lia | reflexivity].
Qed.

Lemma msgt_inc_bit_capped (m : cec_msg_transfer) :
  MAX_CEC_MSG_LEN <= byte m ->
  msgt_inc_bit m = Msgt (buf m) (u8 (bit m + 1)) (byte m).
Proof.
  intros H. unfold msgt_inc_bit, set_bit. cbn [bit byte buf].
  destruct (u8 (bit m + 1) =? 8); [|reflexivity].
  destruct (Z.leb_spec MAX_CEC_MSG_LEN (byte m)); [reflexivity | lia].
Qed.

Lemma msgt_inc_bit_wrap (m : cec_msg_transfer) :
  byte m < MAX_CEC_MSG_LEN -> bit m = 7 ->
  msgt_inc_bit m = Msgt (buf m) 0 (u8 (byte m + 1)).
Proof.
  intros H E. unfold msgt_inc_bit, set_bit, set_byte. cbn [bit byte buf].
  rewrite E. cbn [Z.add Pos.add Pos.succ u8 Z.modulo Z.div_eucl].
  change (7 + 1) with 8. change (u8 8 =? 8) with true. cbv iota.
  destruct (Z.leb_spec MAX_CEC_MSG_LEN (byte m)); [lia | reflexivity].
Qed.

Lemma msgt_inc_bit_next (m : cec_msg_transfer) :
  0 <= bit m < 7 ->
  msgt_inc_bit m = Msgt (buf m) (bit m + 1) (byte m).
Proof.
  intros H. unfold msgt_inc_bit, set_bit. cbn [bit byte buf].
  assert (E : u8 (bit m + 1) = bit m + 1)
    by (unfold u8; apply Z.mod_small; lia).
  rewrite E.
  destruct (Z.eqb_spec (bit m + 1) 8); [lia | reflexivity].
Qed.

(** C9: for every cursor whose byte offset is at or beyond the buffer
    capacity (16), the advance operation leaves the byte offset (and the
    buffer) as they are and increments the bit offset (as a [uint8_t])
    without wrapping it at 8: [n] advances from bit offset [b] lead to
    [b + n] (as long as the [uint8_t] holds it), so one advance from 7
    gives 8 and further advances go on increasing.  The guard of the wrap is the capacity:
    below it, and whatever the declared length, an advance from bit
    offset 7 wraps to bit 0 of the next byte. *)
Theorem msgt_inc_bit_at_capacity (m : cec_msg_transfer) (n : nat)
  (Hcap : MAX_CEC_MSG_LEN <= byte m)
  (Hbit : 0 <= bit m)
  (Hn : bit m + Z.of_nat n < 256) :
  Nat.iter n msgt_inc_bit m = Msgt (buf m) (bit m + Z.of_nat n) (byte m)
  /\ msgt_inc_bit m = Msgt (buf m) ((bit m + 1) mod 256) (byte m)
  /\ (bit m = 7 -> bit (msgt_inc_bit m) = 8 /\ byte (msgt_inc_bit m) = byte m)
  /\ (forall m', byte m' < MAX_CEC_MSG_LEN -> bit m' = 7 ->
                 bit (msgt_inc_bit m') = 0
                 /\ byte (msgt_inc_bit m') = u8 (byte m' + 1)).
Proof.
  split; [|split; [|split]].
  - induction n as [|n IH].
    + cbn [Nat.iter Z.of_nat]. rewrite Z.add_0_r. now destruct m.
    + rewrite Nat.iter_succ, IH by lia.
      rewrite msgt_inc_bit_capped by exact Hcap.
      cbn [buf bit byte]. f_equal.
      unfold u8. rewrite Z.mod_small by lia. lia.
  - apply msgt_inc_bit_capped. exact Hcap.
  - intros E. rewrite msgt_inc_bit_capped by exact Hcap.
    cbn [bit byte]. rewrite E. split; reflexivity.
  - intros m' Hlt E. rewrite msgt_inc_bit_wrap by assumption.
    split; reflexivity.
Qed.

Lemma msgt_inc_bit_at_capacity_witness :
  Nat.iter 5 msgt_inc_bit (Msgt (repeat 0 16%nat) 7 16)
  = Msgt (repeat 0 16%nat) 12 16.
Proof.
  apply (msgt_inc_bit_at_capacity (Msgt (repeat 0 16%nat) 7 16) 5);
    vm_compute; first [reflexivity | discriminate].
Defined.

(** ** Timer expiry in the idle state *)

(** C10: a timer expiry delivered in the idle state changes nothing: the
    state, the message buffer, the stored length, the cursor, the resend
    counter, the acknowledgment flag, the pending events, the level of the
    output line and the timer are all as before. *)
Theorem timeout_idle_noop (line : Z) (s : cec)
  (Hidle : cec_state s = CEC_STATE_IDLE) :
  cec_event_timeout line s = s.
Proof. unfold cec_event_timeout. rewrite Hidle. reflexivity. Qed.

Lemma timeout_idle_noop_witness :
  cec_event_timeout 1 (boot 1500) = boot 1500.
Proof. apply (timeout_idle_noop 1 (boot 1500)). reflexivity. Defined.

(** ** Admission *)

Lemma memcpy_defined (dst src : list Z) (n : Z) :
  0 <= n <= Z.of_nat (length src) -> n <= Z.of_nat (length dst) ->
  memcpy dst src n = Some (firstn (Z.to_nat n) src ++ skipn (Z.to_nat n) dst).
Proof.
  intros Hs Hd. unfold memcpy.
  destruct (Z.leb_spec n (Z.of_nat (length src))); [|lia].
  destruct (Z.leb_spec n (Z.of_nat (length dst))); [|lia].
  reflexivity.
Qed.

Lemma memcpy_shape (dst src : list Z) (n : Z) :
  0 <= n <= Z.of_nat (length src) -> n <= Z.of_nat (length dst) ->
  let r := firstn (Z.to_nat n) src ++ skipn (Z.to_nat n) dst in
  firstn (Z.to_nat n) r = firstn (Z.to_nat n) src
  /\ skipn (Z.to_nat n) r = skipn (Z.to_nat n) dst
  /\ length r = length dst.
Proof.
  intros Hs Hd r. subst r.
  assert (L : length (firstn (Z.to_nat n) src) = Z.to_nat n)
    by (rewrite length_firstn; lia).
  repeat split.
  - rewrite firstn_app, L, Nat.sub_diag, firstn_O, app_nil_r.
    apply firstn_all2. lia.
  - rewrite skipn_app, L, Nat.sub_diag.
    rewrite skipn_all2 by lia. reflexivity.
  - rewrite length_app, L, length_skipn. lia.
Qed.

(** The accepted case of [cec_send], in full. *)
Lemma cec_send_free (msg : list Z) (n : Z) (s : cec) :
  len (cec_tx s) = 0 ->
  0 <= n <= Z.of_nat (length msg) ->
  n <= Z.of_nat (length (buf (msgt (cec_tx s)))) ->
  cec_send msg n s
  = Some (0, Cec (cec_state s)
                 (Tx (Msgt (firstn (Z.to_nat n) msg
                            ++ skipn (Z.to_nat n) (buf (msgt (cec_tx s))))
                           (bit (msgt (cec_tx s))) (byte (msgt (cec_tx s))))
                     n (resends (cec_tx s)) (ack (cec_tx s)))
                 (cec_events s) (apb1_freq_div_10k s)
                 (gpio_out s) (tcnt1 s) (Some 0) (mkbp s)).
Proof.
  intros Hfree Hsrc Hdst. unfold cec_send.
  rewrite Hfree. cbn [Z.eqb negb].
  cbn [set_cec_tx set_len cec_tx msgt].
  rewrite memcpy_defined by assumption.
  reflexivity.
Qed.

Lemma cec_send_busy (msg : list Z) (n : Z) (s : cec) :
  len (cec_tx s) <> 0 -> cec_send msg n s = Some (-1, s).
Proof.
  intros Hbusy. unfold cec_send.
  destruct (Z.eqb_spec (len (cec_tx s)) 0); [contradiction | reflexivity].
Qed.

(** C4: called while a transfer is in progress (stored length non-zero),
    [cec_send] returns -1 (busy) and leaves the whole state, the in-flight
    buffer, the stored length, the cursor, the resend counter and the
    state of the machine included, as it is; called while no transfer is
    in progress, with a message that fits the buffer, it returns 0
    (accepted), stores the length, copies the message to the head of the
    buffer and starts timer 2 with a count of 0 (the start trigger),
    leaving everything else as it is. *)
Theorem cec_send_busy_or_accepted (msg : list Z) (n : Z) (s : cec) :
  (len (cec_tx s) <> 0 -> cec_send msg n s = Some (-1, s))
  /\ (len (cec_tx s) = 0 ->
      0 <= n <= Z.of_nat (length msg) ->
      n <= Z.of_nat (length (buf (msgt (cec_tx s)))) ->
      exists s',
        cec_send msg n s = Some (0, s')
        /\ len (cec_tx s') = n
        /\ firstn (Z.to_nat n) (buf (msgt (cec_tx s')))
           = firstn (Z.to_nat n) msg
        /\ skipn (Z.to_nat n) (buf (msgt (cec_tx s')))
           = skipn (Z.to_nat n) (buf (msgt (cec_tx s)))
        /\ length (buf (msgt (cec_tx s'))) = length (buf (msgt (cec_tx s)))
        /\ tcnt2 s' = Some 0
        /\ bit (msgt (cec_tx s')) = bit (msgt (cec_tx s))
        /\ byte (msgt (cec_tx s')) = byte (msgt (cec_tx s))
        /\ resends (cec_tx s') = resends (cec_tx s)
        /\ ack (cec_tx s') = ack (cec_tx s)
        /\ cec_state s' = cec_state s
        /\ cec_events s' = cec_events s
        /\ apb1_freq_div_10k s' = apb1_freq_div_10k s
        /\ gpio_out s' = gpio_out s
        /\ tcnt1 s' = tcnt1 s
        /\ mkbp s' = mkbp s).
Proof.
  split.
  - apply cec_send_busy.
  - intros Hfree Hsrc Hdst.
    rewrite cec_send_free by assumption.
    destruct (memcpy_shape (buf (msgt (cec_tx s))) msg n Hsrc Hdst)
      as (Hhead & Htail & Hlen).
    eexists. split; [reflexivity|].
    cbn. repeat split; assumption.
Qed.

Lemma cec_send_busy_or_accepted_witness :
  (exists s', cec_send [64; 1] 2 (boot 1500) = Some (0, s')
              /\ len (cec_tx s') = 2 /\ tcnt2 s' = Some 0)
  /\ (let busy := Cec CEC_STATE_INITIATOR_DATA_LOW
                      (Tx (Msgt (64 :: 1 :: repeat 0 14%nat) 3 1) 2 0 1)
                      0 1500 0 (Some 9000) None [] in
      cec_send [79; 2; 3] 3 busy = Some (-1, busy)).
Proof.
  split.
  - destruct (cec_send_busy_or_accepted [64; 1] 2 (boot 1500)) as [_ H].
    assert (Hsrc : 0 <= 2 <= Z.of_nat (length [64; 1])) by (cbn; lia).
    assert (Hdst : 2 <= Z.of_nat (length (buf (msgt (cec_tx (boot 1500))))))
      by (vm_compute; discriminate).
    destruct (H eq_refl Hsrc Hdst) as (s' & E & L & _ & _ & _ & T & _).
    exists s'. repeat split; assumption.
  - intros busy.
    destruct (cec_send_busy_or_accepted [79; 2; 3] 3 busy) as [H _].
    apply H. cbn. discriminate.
Defined.

(** ** Runs *)

Lemma run_cons l ls s : run (l :: ls) s = run ls (cec_event_timeout l s).
Proof. reflexivity. Qed.

Lemma states_cons l ls s :
  states (l :: ls) s
  = cec_state (cec_event_timeout l s) :: states ls (cec_event_timeout l s).
Proof. reflexivity. Qed.

Lemma run_app l1 l2 s : run (l1 ++ l2) s = run l2 (run l1 s).
Proof.
  revert s. induction l1 as [|l l1 IH]; intros s; cbn [app run].
  - reflexivity.
  - apply IH.
Qed.

Lemma states_app l1 l2 s :
  states (l1 ++ l2) s = states l1 s ++ states l2 (run l1 s).
Proof.
  revert s. induction l1 as [|l l1 IH]; intros s; cbn [app run states].
  - reflexivity.
  - now rewrite IH.
Qed.

Lemma all_acks_app P l1 l2 s :
  all_acks P (l1 ++ l2) s <-> all_acks P l1 s /\ all_acks P l2 (run l1 s).
Proof.
  revert s. induction l1 as [|l l1 IH]; intros s; cbn [app run all_acks].
  - tauto.
  - rewrite IH. tauto.
Qed.

(** A list of known length splits at any smaller length. *)
Lemma split_lines (lines : list Z) (n m : nat) :
  length lines = (n + m)%nat ->
  exists l1 l2, lines = l1 ++ l2 /\ length l1 = n /\ length l2 = m.
Proof.
  intros H. exists (firstn n lines), (skipn n lines).
  rewrite firstn_skipn, length_firstn, length_skipn.
  repeat split; lia.
Qed.

(** *** Symbolic execution of one expiry

    The state is kept as a record of its fields; the pin and timer 1,
    which no transition reads, are replaced by fresh names at every
    entry action. *)

Ltac soft_cbn :=
  cbv beta iota zeta delta
    [set_cec_state set_cec_tx set_msgt set_len set_resends set_ack
     set_buf set_bit set_byte msgt_inc_bit entry_tx send_mkbp_event
     cec_state cec_tx cec_events apb1_freq_div_10k gpio_out tcnt1 tcnt2 mkbp
     msgt len resends ack buf bit byte];
  cbn [u8 negb Z.eqb Z.add Z.modulo Z.div_eucl Z.pos_div_eucl Z.leb Z.ltb
       Z.compare Pos.eqb Pos.add Pos.succ Pos.compare Pos.compare_cont
       Z.pos_sub Z.opp Z.sub Z.mul Pos.mul Pos.pred_double Z.double
       Z.succ_double Z.pred_double MAX_CEC_MSG_LEN CEC_MAX_RESENDS].

Ltac soft_cbn_in E :=
  cbv beta iota zeta delta
    [set_cec_state set_cec_tx set_msgt set_len set_resends set_ack
     set_buf set_bit set_byte msgt_inc_bit entry_tx send_mkbp_event
     cec_state cec_tx cec_events apb1_freq_div_10k gpio_out tcnt1 tcnt2 mkbp
     msgt len resends ack buf bit byte] in E;
  cbn [u8 negb Z.eqb Z.add Z.modulo Z.div_eucl Z.pos_div_eucl Z.leb Z.ltb
       Z.compare Pos.eqb Pos.add Pos.succ Pos.compare Pos.compare_cont
       Z.pos_sub Z.opp Z.sub Z.mul Pos.mul Pos.pred_double Z.double
       Z.succ_double Z.pred_double MAX_CEC_MSG_LEN CEC_MAX_RESENDS] in E.

Ltac tick :=
  rewrite run_cons, states_cons;
  match goal with
  | |- context [cec_event_timeout ?l ?S] =>
      let S1 := fresh "S" in
      let E := fresh "E" in
      remember (cec_event_timeout l S) as S1 eqn:E;
      unfold cec_event_timeout in E; soft_cbn_in E;
      match type of E with
      | context [enter_state ?l' ?X ?S'] =>
          let g := fresh "g" in
          let t := fresh "t" in
          let E' := fresh "E" in
          destruct (enter_state_soft l' X S') as (g & t & E');
          rewrite E' in E; clear E'; soft_cbn_in E
      end;
      subst S1; soft_cbn
  end.

Ltac exact_length ls H :=
  lazymatch type of H with
  | length ls = O => destruct ls; [clear H | discriminate H]
  | length ls = S _ =>
      let l := fresh "l" in
      let ls' := fresh "ls" in
      destruct ls as [|l ls']; [discriminate H|];
      cbn [length] in H; injection H as H; exact_length ls' H
  end.

(** *** The phases of a frame *)

(** From the free time to the sample point of the header block: 22
    expiries, whatever the line does meanwhile. *)
Lemma header_phase lines bf bi by_ ln rs ak ev b g t t2 log :
  length lines = 22%nat ->
  let s := Cec CEC_STATE_INITIATOR_FREE_TIME (Tx (Msgt bf bi by_) ln rs ak)
               ev b g t t2 log in
  exists g' t',
    run lines s
    = Cec CEC_STATE_INITIATOR_ACK_HIGH (Tx (Msgt bf 0 1) ln rs ak)
          ev b g' t' t2 log
    /\ states lines s = header_states.
Proof.
  intros H s. subst s.
  exact_length lines H.
  do 22 tick.
  cbn [run states]. do 2 eexists. split; reflexivity.
Qed.

(** The first expiry of a frame resets the cursor. *)
Lemma start_bit_resets l bf bi by_ ln rs ak ev b g t t2 log :
  let s := cec_event_timeout l
             (Cec CEC_STATE_INITIATOR_FREE_TIME (Tx (Msgt bf bi by_) ln rs ak)
                  ev b g t t2 log) in
  cec_state s = CEC_STATE_INITIATOR_START_LOW
  /\ msgt (cec_tx s) = Msgt bf 0 0.
Proof.
  cbn zeta. unfold cec_event_timeout. cbn [cec_state].
  rewrite enter_state_cec_state, enter_state_cec_tx.
  split; reflexivity.
Qed.

(** The sample: one expiry in [CEC_STATE_INITIATOR_ACK_HIGH]. *)
Lemma sample_phase l tx ev b g t t2 log :
  exists g' t',
    cec_event_timeout l (Cec CEC_STATE_INITIATOR_ACK_HIGH tx ev b g t t2 log)
    = Cec CEC_STATE_INITIATOR_ACK_VERIFY
          (entry_tx l CEC_STATE_INITIATOR_ACK_VERIFY tx) ev b g' t' t2 log.
Proof.
  unfold cec_event_timeout. cbn [cec_state].
  match goal with
  | |- context [enter_state ?l' ?X ?S'] =>
      destruct (enter_state_soft l' X S') as (g' & t' & ->)
  end.
  do 2 eexists. reflexivity.
Qed.

(** After an acknowledged block that is not the last: the next data
    block, up to its sample point, in 20 expiries. *)
Lemma data_phase lines bf k ln rs ev b g t t2 log :
  length lines = 20%nat ->
  1 <= k < MAX_CEC_MSG_LEN -> k <> ln ->
  let s := Cec CEC_STATE_INITIATOR_ACK_VERIFY (Tx (Msgt bf 0 k) ln rs 1)
               ev b g t t2 log in
  exists g' t',
    run lines s
    = Cec CEC_STATE_INITIATOR_ACK_HIGH (Tx (Msgt bf 0 (k + 1)) ln rs 1)
          ev b g' t' t2 log
    /\ states lines s = data_states.
Proof.
  intros H Hk Hln s. subst s.
  exact_length lines H.
  assert (Heom : msgt_is_eom (Msgt bf 0 k) ln = 0).
  { unfold msgt_is_eom. cbn [bit byte Z.eqb negb].
    destruct (Z.eqb_spec k ln); [contradiction | reflexivity]. }
  rewrite run_cons, states_cons.
  match goal with
  | |- context [cec_event_timeout ?l ?S] =>
      remember (cec_event_timeout l S) as S1 eqn:E
  end.
  unfold cec_event_timeout in E.
  cbn [cec_state cec_tx ack msgt len Z.eqb negb] in E.
  rewrite Heom in E. cbn [Z.eqb] in E.
  match type of E with
  | context [enter_state ?l' ?X ?S'] =>
      destruct (enter_state_soft l' X S') as (g0 & t0 & E');
      rewrite E' in E; clear E'; soft_cbn_in E
  end.
  subst S1. soft_cbn. clear Heom Hln.
  unfold MAX_CEC_MSG_LEN in Hk.
  assert (Hcases : k = 1 \/ k = 2 \/ k = 3 \/ k = 4 \/ k = 5 \/ k = 6
                   \/ k = 7 \/ k = 8 \/ k = 9 \/ k = 10 \/ k = 11
                   \/ k = 12 \/ k = 13 \/ k = 14 \/ k = 15) by lia.
  clear Hk.
  repeat (destruct Hcases as [->|Hcases]); [..|subst k];
    (do 19 tick; cbn [run states]; do 2 eexists; split; reflexivity).
Qed.

(** *** Leaving the verification state *)

Lemma verify_done l bf ln rs ev b g t t2 log :
  exists g' t',
    cec_event_timeout l
      (Cec CEC_STATE_INITIATOR_ACK_VERIFY (Tx (Msgt bf 0 ln) ln rs 1)
           ev b g t t2 log)
    = Cec CEC_STATE_IDLE (Tx (Msgt bf 0 0) 0 0 1)
          (Z.lor ev EC_MKBP_CEC_SEND_OK) b g' t' t2
          (log ++ [EC_MKBP_CEC_SEND_OK]).
Proof.
  unfold cec_event_timeout.
  cbn [cec_state cec_tx ack msgt len Z.eqb negb].
  unfold msgt_is_eom. cbn [bit byte Z.eqb negb].
  rewrite Z.eqb_refl. cbn [Z.eqb].
  match goal with
  | |- context [enter_state ?l' ?X ?S'] =>
      destruct (enter_state_soft l' X S') as (g' & t' & ->)
  end.
  soft_cbn. do 2 eexists. reflexivity.
Qed.

Lemma verify_resend l m ln rs ev b g t t2 log :
  0 <= rs < CEC_MAX_RESENDS ->
  exists g' t',
    cec_event_timeout l
      (Cec CEC_STATE_INITIATOR_ACK_VERIFY (Tx m ln rs 0) ev b g t t2 log)
    = Cec CEC_STATE_INITIATOR_FREE_TIME (Tx m ln (rs + 1) 0)
          ev b g' t' t2 log.
Proof.
  intros Hrs. unfold cec_event_timeout.
  cbn [cec_state cec_tx ack resends Z.eqb negb].
  destruct (Z.ltb_spec rs CEC_MAX_RESENDS); [|lia].
  match goal with
  | |- context [enter_state ?l' ?X ?S'] =>
      destruct (enter_state_soft l' X S') as (g' & t' & ->)
  end.
  unfold CEC_MAX_RESENDS in Hrs.
  assert (E : u8 (rs + 1) = rs + 1) by (unfold u8; apply Z.mod_small; lia).
  cbv beta iota zeta delta
    [set_cec_tx set_resends entry_tx cec_state cec_tx cec_events
     apb1_freq_div_10k tcnt2 mkbp msgt len resends ack].
  rewrite E. do 2 eexists. reflexivity.
Qed.


Lemma sample_acknowledged l m ln rs ak :
  acknowledged (Tx m ln rs ak) l ->
  entry_tx l CEC_STATE_INITIATOR_ACK_VERIFY (Tx m ln rs ak) = Tx m ln rs 1.
Proof.
  intros H. destruct (ack_recorded l (Tx m ln rs ak)) as [Hok _].
  specialize (Hok H). cbn [entry_tx ack msgt len resends] in *.
  now rewrite Hok.
Qed.

Lemma sample_refused l m ln rs ak :
  refused (Tx m ln rs ak) l ->
  entry_tx l CEC_STATE_INITIATOR_ACK_VERIFY (Tx m ln rs ak) = Tx m ln rs 0.
Proof.
  intros H. destruct (ack_recorded l (Tx m ln rs ak)) as [_ Hno].
  specialize (Hno H). cbn [entry_tx ack msgt len resends] in *.
  now rewrite Hno.
Qed.

(** *** An acknowledged transfer *)

(** From the sample point of block [k] to the end, [n] blocks remaining
    after this one. *)
Lemma ok_tail (n : nat) :
  forall k lines bf ln rs ak ev b g t t2 log,
    1 <= k -> k + Z.of_nat n = ln -> ln <= MAX_CEC_MSG_LEN ->
    length lines = (2 + 21 * n)%nat ->
    let s := Cec CEC_STATE_INITIATOR_ACK_HIGH (Tx (Msgt bf 0 k) ln rs ak)
                 ev b g t t2 log in
    all_acks acknowledged lines s ->
    exists g' t',
      run lines s
      = Cec CEC_STATE_IDLE (Tx (Msgt bf 0 0) 0 0 1)
            (Z.lor ev EC_MKBP_CEC_SEND_OK) b g' t' t2
            (log ++ [EC_MKBP_CEC_SEND_OK])
      /\ states lines s
         = concat (repeat (CEC_STATE_INITIATOR_ACK_VERIFY :: data_states) n)
           ++ [CEC_STATE_INITIATOR_ACK_VERIFY; CEC_STATE_IDLE].
Proof.
  induction n as [|n IH]; intros k lines bf ln rs ak ev b g t t2 log
    Hk Hln Hcap Hlen s Hacks; subst s.
  - cbn [Nat.mul Nat.add] in Hlen.
    destruct lines as [|l1 [|l2 [|? ?]]]; try discriminate Hlen.
    cbn [all_acks] in Hacks. destruct Hacks as [Hack _].
    specialize (Hack eq_refl). cbn [cec_tx cec_state] in Hack.
    rewrite !run_cons, !states_cons.
    destruct (sample_phase l1 (Tx (Msgt bf 0 k) ln rs ak) ev b g t t2 log)
      as (g1 & t1 & ->).
    rewrite (sample_acknowledged _ _ _ _ _ Hack).
    assert (k = ln) as -> by lia.
    destruct (verify_done l2 bf ln rs ev b g1 t1 t2 log) as (g2 & t3 & ->).
    cbn [run states cec_state repeat concat app].
    do 2 eexists. split; reflexivity.
  - destruct lines as [|l1 lines]; [discriminate Hlen|].
    cbn [length] in Hlen.
    destruct (split_lines lines 20 (2 + 21 * n)) as (A & B & -> & HA & HB);
      [lia|].
    cbn [all_acks] in Hacks. destruct Hacks as [Hack Hacks].
    specialize (Hack eq_refl). cbn [cec_tx cec_state] in Hack.
    rewrite run_cons, states_cons.
    destruct (sample_phase l1 (Tx (Msgt bf 0 k) ln rs ak) ev b g t t2 log)
      as (g1 & t1 & E1).
    rewrite E1 in *. clear E1.
    rewrite (sample_acknowledged _ _ _ _ _ Hack) in *.
    apply all_acks_app in Hacks. destruct Hacks as [_ Hacks].
    rewrite run_app, states_app.
    destruct (data_phase A bf k ln rs ev b g1 t1 t2 log HA) as
      (g2 & t3 & E2 & T2); [lia | lia |].
    cbn zeta in E2, T2. rewrite E2 in *. rewrite T2.
    destruct (IH (k + 1) B bf ln rs 1 ev b g2 t3 t2 log) as
      (g3 & t4 & E3 & T3); [lia | lia | lia | exact HB | exact Hacks |].
    cbn zeta in E3, T3. rewrite E3, T3.
    do 2 eexists. split; [reflexivity|].
    cbn [cec_state repeat concat]. rewrite <- !app_assoc. reflexivity.
Qed.

(** Admission of a message of 1 to 16 bytes in an idle state, followed
    by the interrupt of the start trigger: the machine is in its free
    time, the message at the head of the buffer. *)
Lemma start_transfer_accepts (msg : list Z) (line : Z) (s : cec) :
  idle s ->
  (1 <= length msg <= 16)%nat ->
  exists g t,
    start_transfer msg line s
    = Some (Cec CEC_STATE_INITIATOR_FREE_TIME
                (Tx (Msgt (msg ++ skipn (length msg) (buf (msgt (cec_tx s))))
                          (bit (msgt (cec_tx s))) (byte (msgt (cec_tx s))))
                    (Z.of_nat (length msg)) 0 (ack (cec_tx s)))
                (cec_events s) (apb1_freq_div_10k s) g t None (mkbp s)).
Proof.
  intros (Hst & Hlen & Hrs & Hbuf) Hmsg.
  unfold start_transfer, hc_cec_write.
  destruct (Z.eqb_spec (Z.of_nat (length msg)) 0) as [C|_]; [lia|].
  destruct (Z.ltb_spec MAX_CEC_MSG_LEN (Z.of_nat (length msg))) as [C|_];
    [unfold MAX_CEC_MSG_LEN in C; lia|].
  cbn [orb].
  assert (E : u8 (Z.of_nat (length msg)) = Z.of_nat (length msg))
    by (unfold u8; apply Z.mod_small; lia).
  rewrite E.
  rewrite cec_send_free;
    [ | exact Hlen | lia | rewrite Hbuf; unfold MAX_CEC_MSG_LEN; lia ].
  cbn [Z.eqb negb]. unfold cec_isr, cec_event_tx.
  match goal with
  | |- context [enter_state ?l' ?X ?S'] =>
      destruct (enter_state_soft l' X S') as (g & t & ->)
  end.
  rewrite Nat2Z.id, firstn_all, Hrs.
  cbn [tmr2_stop entry_tx cec_tx cec_events apb1_freq_div_10k tcnt2 mkbp].
  do 2 eexists. reflexivity.
Qed.

(** C1: for every message of 1 to 16 bytes admitted in an idle state, a
    run of [3 + 21 * length] timer expiries in which every ACK sample reads
    as acknowledged (line low for a direct destination, high for the
    broadcast destination 15) goes through exactly one frame, state by
    state as [ok_states] lists them, and ends in the idle state with
    exactly one event, send-ok, recorded and OR-ed into the pending mask,
    the stored length 0, the resend counter 0 and the cursor at {0,0}. *)
Theorem acknowledged_transfer_ok (msg : list Z) (line0 : Z) (lines : list Z)
  (s0 : cec)
  (Hidle : idle s0)
  (Hmsg : (1 <= length msg <= 16)%nat)
  (Hlines : length lines = (3 + 21 * length msg)%nat) :
  exists s1,
    start_transfer msg line0 s0 = Some s1
    /\ (all_acks acknowledged lines s1 ->
        let s' := run lines s1 in
        cec_state s' = CEC_STATE_IDLE
        /\ len (cec_tx s') = 0
        /\ resends (cec_tx s') = 0
        /\ bit (msgt (cec_tx s')) = 0
        /\ byte (msgt (cec_tx s')) = 0
        /\ mkbp s' = mkbp s0 ++ [EC_MKBP_CEC_SEND_OK]
        /\ cec_events s' = Z.lor (cec_events s0) EC_MKBP_CEC_SEND_OK
        /\ states lines s1 = ok_states (length msg)
        /\ frames (states lines s1) = 1%nat).
Proof.
  destruct (start_transfer_accepts msg line0 s0 Hidle Hmsg) as (g & t & E).
  eexists. split; [exact E|].
  intros Hacks.
  destruct (split_lines lines 22 (2 + 21 * (length msg - 1)))
    as (A & B & -> & HA & HB); [lia|].
  apply all_acks_app in Hacks. destruct Hacks as [_ Hacks].
  cbn zeta. rewrite run_app, states_app.
  match goal with
  | |- context [run A (Cec _ (Tx (Msgt ?bf ?bi ?by_) ?ln ?rs ?ak)
                           ?ev ?b _ _ ?t2 ?log)] =>
      destruct (header_phase A bf bi by_ ln rs ak ev b g t t2 log HA)
        as (g1 & t1 & E1 & T1)
  end.
  cbn zeta in E1, T1. rewrite E1 in *. rewrite T1.
  match type of Hacks with
  | all_acks _ _ (Cec _ (Tx (Msgt ?bf _ _) ?ln ?rs ?ak) ?ev ?b _ _ ?t2 ?log) =>
      destruct (ok_tail (length msg - 1) 1 B bf ln rs ak ev b g1 t1 t2 log)
        as (g2 & t3 & E2 & T2);
      [ lia | lia | unfold MAX_CEC_MSG_LEN; lia | exact HB | exact Hacks | ]
  end.
  cbn zeta in E2, T2. rewrite E2, T2.
  cbn [cec_state cec_tx len resends msgt bit byte mkbp cec_events].
  assert (Hframes :
    forall n, frames (header_states
                      ++ concat (repeat (CEC_STATE_INITIATOR_ACK_VERIFY
                                         :: data_states) n)
                      ++ [CEC_STATE_INITIATOR_ACK_VERIFY; CEC_STATE_IDLE])
              = 1%nat).
  { intros n. unfold frames. rewrite !count_occ_app.
    assert (Hrep : count_occ enum_cec_state_eq_dec
                     (concat (repeat (CEC_STATE_INITIATOR_ACK_VERIFY
                                      :: data_states) n))
                     CEC_STATE_INITIATOR_START_LOW = 0%nat).
    { induction n as [|n IHn]; [reflexivity|].
      cbn [repeat concat]. rewrite count_occ_app, IHn. reflexivity. }
    rewrite Hrep. reflexivity. }
  repeat split; try reflexivity.
  apply Hframes.
Qed.

Lemma acknowledged_transfer_ok_witness :
  exists s1,
    start_transfer [64; 1] 1 (boot 1500) = Some s1
    /\ cec_state (run (repeat 0 45%nat) s1) = CEC_STATE_IDLE
    /\ len (cec_tx (run (repeat 0 45%nat) s1)) = 0
    /\ mkbp (run (repeat 0 45%nat) s1) = [EC_MKBP_CEC_SEND_OK].
Proof.
  assert (Hidle : idle (boot 1500)) by (vm_compute; repeat split).
  assert (Hmsg : (1 <= length [64; 1] <= 16)%nat) by (cbn; lia).
  assert (Hlines : length (repeat 0 45%nat) = (3 + 21 * length [64; 1])%nat)
    by reflexivity.
  destruct (acknowledged_transfer_ok [64; 1] 1 (repeat 0 45%nat) (boot 1500)
              Hidle Hmsg Hlines) as (s1 & E & H).
  exists s1. split; [exact E|].
  assert (Hacks : all_acks acknowledged (repeat 0 45%nat) s1).
  { vm_compute in E. injection E as <-.
    vm_compute. repeat split; intros _; reflexivity. }
  destruct (H Hacks) as (Hst & Hlen & _ & _ & _ & Hlog & _).
  repeat split; assumption.
Defined.

(** *** A transfer that is never acknowledged *)





(** ** The cursor in reachable states *)

Ltac enter :=
  match goal with
  | |- context [enter_state ?l ?X ?S] =>
      let g := fresh "g" in
      let t := fresh "t" in
      destruct (enter_state_soft l X S) as (g & t & ->)
  end.

Ltac inv_done Ht2 :=
  cbv beta iota zeta delta
    [set_cec_state set_cec_tx set_msgt set_len set_resends set_ack
     set_buf set_bit set_byte entry_tx send_mkbp_event
     cec_state cec_tx cec_events apb1_freq_div_10k gpio_out tcnt1 tcnt2 mkbp
     msgt len resends ack buf bit byte];
  unfold MAX_CEC_MSG_LEN, CEC_MAX_RESENDS in *;
  repeat match goal with |- _ /\ _ => split end;
  try assumption; try lia;
  try (let H := fresh in
       intros H; destruct (Ht2 H) as [? ?];
       first [discriminate
             | repeat split; first [assumption | reflexivity | lia]]).

Lemma cursor_inv_initial s : initial s -> cursor_inv s.
Proof.
  intros (Hst & Htx & _ & Ht2 & _). unfold cursor_inv.
  rewrite Hst, Htx, Ht2. cbn [msgt buf bit byte len resends].
  unfold MAX_CEC_MSG_LEN, CEC_MAX_RESENDS.
  repeat split; try lia; try reflexivity; congruence.
Qed.

Lemma cursor_inv_timeout l s : cursor_inv s -> cursor_inv (cec_event_timeout l s).
Proof.
  destruct s as [st [[bf bi by_] ln rs ak] ev b g t t2 log].
  unfold cursor_inv at 1. cbn [cec_state cec_tx msgt buf bit byte len resends tcnt2].
  intros (Hbuf & Hlen & Hrs & Ht2 & Hst).
  unfold cec_event_timeout. cbn [cec_state cec_tx msgt len resends ack].
  destruct st; unfold cursor_inv.
  - (* idle *) inv_done Ht2.
  - enter. inv_done Ht2.
  - enter. inv_done Ht2.
  - enter. inv_done Ht2.
  - enter. inv_done Ht2.
  - (* header, initiator nibble *)
    rewrite msgt_inc_bit_next by (cbn [bit]; lia).
    cbn [set_cec_tx set_msgt cec_tx msgt bit byte buf].
    destruct (Z.eqb_spec (bi + 1) 4); enter; inv_done Ht2.
  - enter. inv_done Ht2.
  - (* header, destination nibble *)
    destruct (Z.eq_dec bi 7) as [->|Hbi].
    + rewrite msgt_inc_bit_wrap
        by (cbn [bit byte]; unfold MAX_CEC_MSG_LEN; lia).
      cbn [set_cec_tx set_msgt cec_tx msgt bit byte buf].
      destruct Hst as (? & ? & ->).
      change (u8 (0 + 1)) with 1. cbn [Z.eqb Pos.eqb].
      enter. inv_done Ht2.
    + rewrite msgt_inc_bit_next by (cbn [bit]; lia).
      cbn [set_cec_tx set_msgt cec_tx msgt bit byte buf].
      destruct Hst as (? & ? & ->). cbn [Z.eqb].
      enter. inv_done Ht2.
  - enter. inv_done Ht2.
  - (* data *)
    destruct (Z.eq_dec bi 7) as [->|Hbi].
    + rewrite msgt_inc_bit_wrap
        by (cbn [bit byte]; unfold MAX_CEC_MSG_LEN in *; lia).
      cbn [set_cec_tx set_msgt cec_tx msgt bit byte buf].
      assert (E : u8 (by_ + 1) = by_ + 1)
        by (unfold u8, MAX_CEC_MSG_LEN in *; apply Z.mod_small; lia).
      rewrite E. cbn [Z.eqb].
      enter. inv_done Ht2.
    + rewrite msgt_inc_bit_next by (cbn [bit]; lia).
      cbn [set_cec_tx set_msgt cec_tx msgt bit byte buf].
      destruct (Z.eqb_spec (bi + 1) 0); [lia|].
      enter. inv_done Ht2.
  - enter. inv_done Ht2.
  - enter. inv_done Ht2.
  - enter. inv_done Ht2.
  - enter. inv_done Ht2.
  - (* verification *)
    destruct Hst as (-> & Hby).
    unfold msgt_is_eom. cbn [bit byte Z.eqb negb].
    destruct (ak =? 0); cbn [negb].
    + destruct (Z.ltb_spec rs CEC_MAX_RESENDS).
      * assert (E : u8 (rs + 1) = rs + 1)
          by (unfold u8, CEC_MAX_RESENDS in *; apply Z.mod_small; lia).
        cbn [set_cec_tx set_resends cec_tx msgt len resends ack].
        rewrite E. enter. inv_done Ht2.
      * enter. inv_done Ht2.
    + destruct (Z.eqb_spec by_ ln); cbn [Z.eqb].
      * enter. inv_done Ht2.
      * enter. inv_done Ht2.
Qed.

Lemma cursor_inv_trigger l s :
  cursor_inv s -> tcnt2 s <> None ->
  cursor_inv (cec_event_tx l (tmr2_stop s)).
Proof.
  destruct s as [st [[bf bi by_] ln rs ak] ev b g t t2 log].
  unfold cursor_inv at 1.
  cbn [cec_state cec_tx msgt buf bit byte len resends tcnt2].
  intros (Hbuf & Hlen & Hrs & Ht2 & Hst) Harmed.
  destruct (Ht2 Harmed) as [-> Hln].
  unfold cec_event_tx, tmr2_stop, cursor_inv.
  cbn [cec_state cec_tx cec_events apb1_freq_div_10k gpio_out tcnt1 mkbp].
  enter.
  cbn [entry_tx cec_state cec_tx msgt buf bit byte len resends tcnt2].
  unfold MAX_CEC_MSG_LEN, CEC_MAX_RESENDS in *.
  repeat match goal with |- _ /\ _ => split end;
    try assumption; try lia.
  intros C. now contradiction C.
Qed.

Lemma cursor_inv_isr tcpnd tdpnd l s :
  cursor_inv s -> (tdpnd = true -> tcnt2 s <> None) ->
  cursor_inv (cec_isr tcpnd tdpnd l s).
Proof.
  intros Hinv Harmed. unfold cec_isr.
  assert (Hstep : cursor_inv (if tcpnd then cec_event_timeout l s else s)
                  /\ (tdpnd = true ->
                      tcnt2 (if tcpnd then cec_event_timeout l s else s)
                      <> None)).
  { destruct tcpnd; [|now split].
    split; [now apply cursor_inv_timeout|].
    intros Htd. specialize (Harmed Htd).
    destruct Hinv as (_ & _ & _ & Ht2 & _).
    destruct (Ht2 Harmed) as [Hidle _].
    unfold cec_event_timeout. rewrite Hidle. exact Harmed. }
  destruct Hstep as [Hinv' Harmed'].
  destruct tdpnd; [|exact Hinv'].
  apply cursor_inv_trigger; auto.
Qed.

(** A transfer is in progress in every state but the idle one. *)
Lemma cursor_inv_busy s :
  cursor_inv s -> cec_state s <> CEC_STATE_IDLE -> 1 <= len (cec_tx s).
Proof.
  intros (_ & Hlen & _ & _ & Hst) Hne.
  destruct (cec_state s); try contradiction; lia.
Qed.

Lemma cursor_inv_write msg s r s' :
  cursor_inv s -> hc_cec_write msg s = Some (r, s') -> cursor_inv s'.
Proof.
  intros Hinv. unfold hc_cec_write.
  destruct ((Z.of_nat (length msg) =? 0)
            || (MAX_CEC_MSG_LEN <? Z.of_nat (length msg))) eqn:Hsize.
  { intros E. injection E as _ <-. exact Hinv. }
  apply orb_false_iff in Hsize. destruct Hsize as [Hz Hcap].
  apply Z.eqb_neq in Hz. apply Z.ltb_ge in Hcap.
  unfold MAX_CEC_MSG_LEN in Hcap.
  assert (E8 : u8 (Z.of_nat (length msg)) = Z.of_nat (length msg))
    by (unfold u8; apply Z.mod_small; lia).
  rewrite E8.
  destruct (Z.eq_dec (len (cec_tx s)) 0) as [Hfree|Hbusy].
  - pose proof Hinv as (Hbuf & Hlen & Hrs & Ht2 & Hst).
    rewrite cec_send_free;
      [ | exact Hfree | lia | rewrite Hbuf; unfold MAX_CEC_MSG_LEN; lia ].
    cbn [Z.eqb negb]. intros E. injection E as _ <-.
    assert (Hidle : cec_state s = CEC_STATE_IDLE).
    { destruct (enum_cec_state_eq_dec (cec_state s) CEC_STATE_IDLE) as [|Hne];
        [assumption|].
      pose proof (cursor_inv_busy s Hinv Hne). lia. }
    rewrite Hidle in Hst. unfold cursor_inv.
    cbn [cec_state cec_tx msgt buf bit byte len resends tcnt2].
    rewrite Hidle.
    destruct (memcpy_shape (buf (msgt (cec_tx s))) msg
                (Z.of_nat (length msg))) as (_ & _ & Hl);
      [lia | rewrite Hbuf; unfold MAX_CEC_MSG_LEN; lia |].
    cbn zeta in Hl. rewrite Hl.
    unfold MAX_CEC_MSG_LEN, CEC_MAX_RESENDS in *.
    repeat match goal with |- _ /\ _ => split end;
      try assumption; try lia; try reflexivity.
    intros _. split; [reflexivity | exact Hz].
  - rewrite cec_send_busy by exact Hbusy.
    cbn [Z.eqb negb]. intros E. injection E as _ <-. exact Hinv.
Qed.

Lemma cursor_inv_next_event s :
  cursor_inv s -> cursor_inv (snd (cec_get_next_event s)).
Proof. intros H. exact H. Qed.

Lemma reachable_cursor_inv s : reachable s -> cursor_inv s.
Proof.
  induction 1 as [s Hinit | s tc td l Hreach IH Harmed
                 | s msg r s' Hreach IH Hwrite | s Hreach IH].
  - now apply cursor_inv_initial.
  - now apply cursor_inv_isr.
  - eapply cursor_inv_write; eassumption.
  - now apply cursor_inv_next_event.
Qed.

Lemma reachable_run lines s : reachable s -> reachable (run lines s).
Proof.
  revert s. induction lines as [|l lines IH]; intros s Hreach; cbn [run].
  - exact Hreach.
  - apply IH.
    change (cec_event_timeout l s) with (cec_isr true false l s).
    apply reach_isr; [exact Hreach | discriminate].
Qed.

Lemma hc_cec_write_success msg s s' :
  hc_cec_write msg s = Some (EC_RES_SUCCESS, s') -> tcnt2 s' = Some 0.
Proof.
  unfold hc_cec_write.
  destruct ((Z.of_nat (length msg) =? 0)
            || (MAX_CEC_MSG_LEN <? Z.of_nat (length msg))); [discriminate|].
  unfold cec_send.
  destruct (negb (len (cec_tx s) =? 0)).
  - cbn [Z.eqb negb]. discriminate.
  - destruct (memcpy _ _ _); [|discriminate].
    cbn [Z.eqb negb]. intros E. injection E as <-. reflexivity.
Qed.

Lemma reachable_start_transfer msg l s s' :
  reachable s -> start_transfer msg l s = Some s' -> reachable s'.
Proof.
  intros Hreach. unfold start_transfer.
  destruct (hc_cec_write msg s) as [[[| |] s1]|] eqn:Hw; try discriminate.
  intros E. injection E as <-.
  change (reachable (cec_isr false true l s1)).
  apply reach_isr.
  - eapply reach_write; eassumption.
  - intros _. rewrite (hc_cec_write_success _ _ _ Hw). discriminate.
Qed.

Lemma reachable_boot b : reachable (boot b).
Proof. apply reach_init. repeat split. Qed.

(** The idle states that can be reached are idle in the sense of the
    transfer theorems as soon as their stored length is 0. *)
Lemma reachable_idle s : reachable s -> len (cec_tx s) = 0 -> idle s.
Proof.
  intros Hreach Hlen. pose proof (reachable_cursor_inv s Hreach) as Hinv.
  assert (Hidle : cec_state s = CEC_STATE_IDLE).
  { destruct (enum_cec_state_eq_dec (cec_state s) CEC_STATE_IDLE) as [|Hne];
      [assumption|].
    pose proof (cursor_inv_busy s Hinv Hne). lia. }
  destruct Hinv as (Hbuf & _ & _ & _ & Hst). rewrite Hidle in Hst.
  repeat split; tauto.
Qed.

(** The hardware never meets the shift by a negative count that
    [msgt_get_bit] would perform with a bit offset above 7. *)
Lemma reachable_shift_defined s :
  reachable s -> 0 <= 7 - bit (msgt (cec_tx s)) <= 7.
Proof.
  intros Hreach. pose proof (reachable_cursor_inv s Hreach) as Hinv.
  destruct Hinv as (_ & _ & _ & _ & Hst).
  destruct (cec_state s); lia.
Qed.

(** C6, as stated, fails: while the last bit of a header is sent the bit
    offset is 7, outside [0,7). *)
Lemma cursor_bit_reaches_seven :
  reachable header_last_bit
  /\ len (cec_tx header_last_bit) = 2
  /\ cec_state header_last_bit = CEC_STATE_INITIATOR_HEADER_DEST_LOW
  /\ ~ (0 <= bit (msgt (cec_tx header_last_bit)) < 7).
Proof.
  split.
  - unfold header_last_bit.
    destruct (start_transfer [64; 1] 0 (boot 1500)) as [s1|] eqn:E;
      [|apply reachable_boot].
    apply reachable_run.
    eapply reachable_start_transfer; [apply reachable_boot | exact E].
  - vm_compute. repeat split. intros [_ H]. discriminate H.
Qed.

(** C6 (amended): in every reachable state in which a transfer is in
    progress (stored length non-zero) the length is 1 to 16, the bit
    offset is in [0,8) and the byte offset does not exceed the length;
    the cursor is {0,0} throughout the idle state and the start bit, and
    the entry actions of the idle state and of the start bit (the first
    state of a frame that drives a bit) reset it to {0,0}. *)
Theorem cursor_bounds (s : cec)
  (Hreach : reachable s)
  (Hprog : len (cec_tx s) <> 0) :
  1 <= len (cec_tx s) <= MAX_CEC_MSG_LEN
  /\ 0 <= bit (msgt (cec_tx s)) < 8
  /\ 0 <= byte (msgt (cec_tx s)) <= len (cec_tx s)
  /\ (cec_state s = CEC_STATE_IDLE
      \/ cec_state s = CEC_STATE_INITIATOR_START_LOW
      \/ cec_state s = CEC_STATE_INITIATOR_START_HIGH ->
      bit (msgt (cec_tx s)) = 0 /\ byte (msgt (cec_tx s)) = 0)
  /\ (forall line,
        bit (msgt (cec_tx (enter_state line CEC_STATE_IDLE s))) = 0
        /\ byte (msgt (cec_tx (enter_state line CEC_STATE_IDLE s))) = 0)
  /\ (forall line,
        bit (msgt (cec_tx (enter_state line
                             CEC_STATE_INITIATOR_START_LOW s))) = 0
        /\ byte (msgt (cec_tx (enter_state line
                                 CEC_STATE_INITIATOR_START_LOW s))) = 0).
Proof.
  pose proof (reachable_cursor_inv s Hreach) as (_ & Hlen & _ & _ & Hst).
  unfold MAX_CEC_MSG_LEN in *.
  split; [lia|]. split; [|split; [|split; [|split]]].
  - destruct (cec_state s); lia.
  - destruct (cec_state s); lia.
  - intros [E | [E | E]]; rewrite E in Hst; lia.
  - intros line. rewrite enter_state_cec_tx. split; reflexivity.
  - intros line. rewrite enter_state_cec_tx. split; reflexivity.
Qed.

Lemma cursor_bounds_witness :
  0 <= bit (msgt (cec_tx header_last_bit)) < 8
  /\ 0 <= byte (msgt (cec_tx header_last_bit)) <= len (cec_tx header_last_bit).
Proof.
  assert (Hreach : reachable header_last_bit).
  { unfold header_last_bit.
    destruct (start_transfer [64; 1] 0 (boot 1500)) as [s1|] eqn:E;
      [|apply reachable_boot].
    apply reachable_run.
    eapply reachable_start_transfer; [apply reachable_boot | exact E]. }
  assert (Hprog : len (cec_tx header_last_bit) <> 0)
    by (vm_compute; discriminate).
  destruct (cursor_bounds header_last_bit Hreach Hprog) as (_ & Hb & Hy & _).
  split; assumption.
Defined.

(** The cursor of the counterexample to C5 belongs to a reachable state:
    the second byte of an earlier message stays in the buffer. *)
Lemma stale_byte_reachable :
  exists s,
    second_transfer = Some s
    /\ reachable s
    /\ cec_state s = CEC_STATE_INITIATOR_EOM_LOW
    /\ len (cec_tx s) <= byte (msgt (cec_tx s))
    /\ msgt_get_bit (msgt (cec_tx s)) = 128.
Proof.
  unfold second_transfer.
  destruct (start_transfer [64; 255] 0 (boot 1500)) as [s1|] eqn:E1;
    [|vm_compute in E1; discriminate E1].
  destruct (start_transfer [64] 0 (run (repeat 0 45%nat) s1)) as [s2|] eqn:E2.
  - eexists. split; [reflexivity|]. split.
    + apply reachable_run.
      eapply reachable_start_transfer; [|exact E2].
      apply reachable_run.
      eapply reachable_start_transfer; [apply reachable_boot | exact E1].
    + vm_compute in E1. injection E1 as <-.
      vm_compute in E2. injection E2 as <-.
      vm_compute. repeat split; discriminate.
  - vm_compute in E1. injection E1 as <-.
    vm_compute in E2. discriminate E2.
Qed.

(** ** Liveness of the timer

    With a clock basis that keeps the products within 32 bits, every
    entry action but that of the idle state arms timer 1 with a positive
    count: each state of a frame is left by the next expiry. *)

Lemma APB1_TICKS_positive b us :
  0 < b -> 3700 * b < 2 ^ 32 -> 100 <= us <= 3700 ->
  APB1_TICKS b us = us * b / 100 /\ 0 < APB1_TICKS b us < 2 ^ 31.
Proof.
  intros Hb Hfit Hus. unfold APB1_TICKS.
  rewrite u32_small by nia.
  split; [reflexivity|].
  assert (100 * 1 <= us * b) by nia.
  assert (us * b < 2 ^ 32) by nia.
  split.
  - apply Z.div_str_pos. lia.
  - apply Z.div_lt_upper_bound; lia.
Qed.

Lemma arm_positive T s :
  0 < T < 2 ^ 31 ->
  tcnt1 (if 0 <=? to_int T then tmr_oneshot_start (to_int T) s else s)
  = Some T.
Proof.
  intros H. rewrite to_int_small by lia.
  destruct (Z.leb_spec 0 T); [reflexivity | lia].
Qed.

Lemma entry_arms_timer line X s :
  X <> CEC_STATE_IDLE ->
  0 < apb1_freq_div_10k s -> 3700 * apb1_freq_div_10k s < 2 ^ 32 ->
  exists T, tcnt1 (enter_state line X s) = Some T /\ 0 < T < 2 ^ 31.
Proof.
  intros HX Hb Hfit.
  set (b := apb1_freq_div_10k s) in *.
  assert (T600 := APB1_TICKS_positive b 600 Hb Hfit ltac:(lia)).
  assert (T900 := APB1_TICKS_positive b 900 Hb Hfit ltac:(lia)).
  assert (T1500 := APB1_TICKS_positive b 1500 Hb Hfit ltac:(lia)).
  assert (T1800 := APB1_TICKS_positive b 1800 Hb Hfit ltac:(lia)).
  assert (T800 := APB1_TICKS_positive b 800 Hb Hfit ltac:(lia)).
  assert (T3700 := APB1_TICKS_positive b 3700 Hb Hfit ltac:(lia)).
  assert (T2400 := APB1_TICKS_positive b 2400 Hb Hfit ltac:(lia)).
  assert (T1050 := APB1_TICKS_positive b 1050 Hb Hfit ltac:(lia)).
  assert (E600 : APB1_TICKS b 600 = 6 * b)
    by (apply (APB1_TICKS_exact b 6); lia).
  assert (E1500 : APB1_TICKS b 1500 = 15 * b)
    by (apply (APB1_TICKS_exact b 15); lia).
  assert (E2400 : APB1_TICKS b 2400 = 24 * b)
    by (apply (APB1_TICKS_exact b 24); lia).
  assert (Hdl : forall d, 0 < DATA_LOW b d < 2 ^ 31)
    by (intros d; unfold DATA_LOW, DATA_ONE_LOW, DATA_ZERO_LOW;
        destruct (negb (d =? 0)); tauto).
  assert (Hdh : forall d, 0 < DATA_HIGH b d < 2 ^ 31)
    by (intros d; unfold DATA_HIGH, DATA_ONE_HIGH, DATA_ZERO_HIGH;
        destruct (negb (d =? 0)); tauto).
  assert (Hrs : 0 < FREE_TIME_RS b < 2 ^ 31)
    by (unfold FREE_TIME_RS, NOMINAL_BIT_TIME; rewrite E2400, u32_small; lia).
  assert (Hni : 0 < FREE_TIME_NI b < 2 ^ 31)
    by (unfold FREE_TIME_NI, NOMINAL_BIT_TIME; rewrite E2400, u32_small; lia).
  assert (Hah : 0 < ACK_HIGH_TIME b < 2 ^ 31).
  { unfold ACK_HIGH_TIME, DATA_ONE_LOW, DATA_ZERO_LOW.
    rewrite E600, E1500.
    rewrite (u32_small (6 * b + 15 * b)) by lia.
    assert (9 * b - 1 <= 2 * ((6 * b + 15 * b) / 2 - 6 * b) <= 9 * b)
      by (pose proof (Z.mul_div_le (6 * b + 15 * b) 2 ltac:(lia));
          pose proof (Z.mul_succ_div_gt (6 * b + 15 * b) 2 ltac:(lia)); lia).
    rewrite u32_small; lia. }
  assert (Hav : 0 < ACK_VERIFY_TIME b < 2 ^ 31).
  { unfold ACK_VERIFY_TIME, NOMINAL_BIT_TIME, NOMINAL_SAMPLE_TIME.
    rewrite E2400.
    destruct T1050 as [E1050 _]. rewrite E1050.
    assert (0 <= 1050 * b / 100 <= 11 * b).
    { split; [apply Z.div_pos; lia|].
      apply Z.div_le_upper_bound; lia. }
    rewrite u32_small; lia. }
  unfold enter_state.
  cbn [set_cec_state apb1_freq_div_10k cec_tx]. fold b.
  destruct X; try contradiction; cbv beta iota zeta; cbn [Z.leb Z.compare];
    unfold START_BIT_LOW, START_BIT_HIGH;
    try destruct (negb (resends (cec_tx s) =? 0));
    eexists; (split; [apply arm_positive|]);
    first [eassumption | apply Hdl | apply Hdh | tauto].
Qed.

(** * Further properties of the driver *)

(** ** Bit periods *)

(** X1: without wrap-around ([0 <= b], [2400 * b < 2^32]) every data bit,
    zero or one, lasts exactly one nominal bit time (low phase plus high
    phase), the ACK bit is sampled exactly [NOMINAL_SAMPLE_TIME] after its
    falling edge, and the three states of the ACK bit together last one
    nominal bit time. *)
Theorem bit_periods (b d : Z) (Hb : 0 <= b) (Hfit : 2400 * b < 2 ^ 32) :
  DATA_LOW b d + DATA_HIGH b d = NOMINAL_BIT_TIME b
  /\ DATA_LOW b 1 + ACK_HIGH_TIME b = NOMINAL_SAMPLE_TIME b
  /\ DATA_LOW b 1 + ACK_HIGH_TIME b + ACK_VERIFY_TIME b = NOMINAL_BIT_TIME b.
Proof.
  assert (E600 : APB1_TICKS b 600 = 6 * b)
    by (apply (APB1_TICKS_exact b 6); lia).
  assert (E1500 : APB1_TICKS b 1500 = 15 * b)
    by (apply (APB1_TICKS_exact b 15); lia).
  assert (E1800 : APB1_TICKS b 1800 = 18 * b)
    by (apply (APB1_TICKS_exact b 18); lia).
  assert (E900 : APB1_TICKS b 900 = 9 * b)
    by (apply (APB1_TICKS_exact b 9); lia).
  assert (E2400 : APB1_TICKS b 2400 = 24 * b)
    by (apply (APB1_TICKS_exact b 24); lia).
  assert (E1050 : APB1_TICKS b 1050 = (6 * b + 15 * b) / 2).
  { unfold APB1_TICKS. rewrite u32_small by lia.
    replace (1050 * b) with (50 * (21 * b)) by ring.
    change 100 with (50 * 2).
    rewrite Z.div_mul_cancel_l by lia. f_equal. ring. }
  assert (Hhalf : 2 * ((6 * b + 15 * b) / 2) <= 21 * b
                  /\ 21 * b < 2 * ((6 * b + 15 * b) / 2) + 2).
  { pose proof (Z.mul_div_le (6 * b + 15 * b) 2 ltac:(lia)).
    pose proof (Z.mul_succ_div_gt (6 * b + 15 * b) 2 ltac:(lia)). lia. }
  assert (Eah : ACK_HIGH_TIME b = (6 * b + 15 * b) / 2 - 6 * b).
  { unfold ACK_HIGH_TIME, DATA_ONE_LOW, DATA_ZERO_LOW.
    rewrite E600, E1500.
    rewrite (u32_small (6 * b + 15 * b)) by lia.
    apply u32_small. lia. }
  assert (Eav : ACK_VERIFY_TIME b = 24 * b - (6 * b + 15 * b) / 2).
  { unfold ACK_VERIFY_TIME, NOMINAL_BIT_TIME, NOMINAL_SAMPLE_TIME.
    rewrite E2400, E1050. apply u32_small. lia. }
  unfold NOMINAL_BIT_TIME, NOMINAL_SAMPLE_TIME.
  rewrite Eah, Eav, E2400, E1050.
  unfold DATA_LOW, DATA_HIGH, DATA_ONE_LOW, DATA_ZERO_LOW,
    DATA_ONE_HIGH, DATA_ZERO_HIGH.
  rewrite E600, E1500, E1800, E900.
  cbn [Z.eqb negb].
  destruct (negb (d =? 0)); repeat split; lia.
Qed.

Lemma bit_periods_witness :
  DATA_LOW 1500 0 + DATA_HIGH 1500 0 = 36000
  /\ DATA_LOW 1500 1 + ACK_HIGH_TIME 1500 = NOMINAL_SAMPLE_TIME 1500.
Proof.
  pose proof (bit_periods 1500 0 ltac:(lia) ltac:(lia)) as (H1 & H2 & _).
  split; [exact H1 | exact H2].
Defined.

(** ** The bit under the cursor *)

Lemma land_single_bit (x n : Z) :
  0 <= n -> (Z.land x (Z.shiftl 1 n) =? 0) = negb (Z.testbit x n).
Proof.
  intros Hn. rewrite Z.shiftl_1_l.
  destruct (Z.testbit x n) eqn:Hx; cbn [negb].
  - apply Z.eqb_neq. intros E.
    assert (Hbit : Z.testbit (Z.land x (2 ^ n)) n = true)
      by (rewrite Z.land_spec, Hx, Z.pow2_bits_true by lia; reflexivity).
    rewrite E, Z.bits_0 in Hbit. discriminate.
  - apply Z.eqb_eq. apply Z.bits_inj'. intros i Hi.
    rewrite Z.land_spec, Z.bits_0, Z.pow2_bits_eqb by lia.
    destruct (Z.eqb_spec n i) as [->|_].
    + rewrite Hx. reflexivity.
    + apply andb_false_r.
Qed.

(** X2: within the buffer and with a bit offset of 0 to 7, the
    current-bit read is non-zero exactly if bit [7 - bit offset] of the
    byte under the cursor is set: bytes go out most significant bit
    first. *)
Theorem msgt_get_bit_msb_first (m : cec_msg_transfer)
  (Hbyte : byte m < MAX_CEC_MSG_LEN)
  (Hbit : 0 <= bit m <= 7) :
  negb (msgt_get_bit m =? 0) = Z.testbit (current_byte m) (7 - bit m).
Proof.
  rewrite msgt_get_bit_below_capacity by exact Hbyte.
  fold (current_byte m).
  rewrite land_single_bit by lia. apply negb_involutive.
Qed.

Lemma msgt_get_bit_msb_first_witness :
  negb (msgt_get_bit (Msgt (64 :: repeat 0 15%nat) 1 0) =? 0) = true.
Proof.
  rewrite (msgt_get_bit_msb_first (Msgt (64 :: repeat 0 15%nat) 1 0));
    [reflexivity | reflexivity | cbn; lia].
Defined.

(** ** What an expiry depends on *)

(** X3: the level of the line is read by one transition only: outside
    the high half of the ACK bit an expiry has the same effect whatever
    the level. *)
Theorem line_read_only_at_sample (l l' : Z) (s : cec)
  (Hst : cec_state s <> CEC_STATE_INITIATOR_ACK_HIGH) :
  cec_event_timeout l s = cec_event_timeout l' s.
Proof.
  unfold cec_event_timeout.
  destruct (cec_state s); try reflexivity.
  contradiction.
Qed.

Lemma line_read_only_at_sample_witness :
  cec_event_timeout 0 header_last_bit = cec_event_timeout 1 header_last_bit.
Proof.
  apply (line_read_only_at_sample 0 1 header_last_bit).
  vm_compute. discriminate.
Defined.

(** X4: an expiry records an outcome only when it leaves the
    verification state for the idle state, and then it clears the stored
    length, the resend counter and the cursor: send-ok only if the
    recorded acknowledgment is positive and the cursor stands at the end
    of the message, send-failed only if the acknowledgment is negative and
    the resend counter has reached [CEC_MAX_RESENDS].  Every other expiry
    leaves the pending events as they are. *)
Theorem outcome_only_from_verify (l : Z) (s : cec) :
  let s' := cec_event_timeout l s in
  (mkbp s' = mkbp s /\ cec_events s' = cec_events s)
  \/ (cec_state s = CEC_STATE_INITIATOR_ACK_VERIFY
      /\ cec_state s' = CEC_STATE_IDLE
      /\ len (cec_tx s') = 0
      /\ resends (cec_tx s') = 0
      /\ bit (msgt (cec_tx s')) = 0
      /\ byte (msgt (cec_tx s')) = 0
      /\ buf (msgt (cec_tx s')) = buf (msgt (cec_tx s))
      /\ ((ack (cec_tx s) <> 0
           /\ bit (msgt (cec_tx s)) = 0
           /\ byte (msgt (cec_tx s)) = len (cec_tx s)
           /\ mkbp s' = mkbp s ++ [EC_MKBP_CEC_SEND_OK]
           /\ cec_events s' = Z.lor (cec_events s) EC_MKBP_CEC_SEND_OK)
          \/ (ack (cec_tx s) = 0
              /\ CEC_MAX_RESENDS <= resends (cec_tx s)
              /\ mkbp s' = mkbp s ++ [EC_MKBP_CEC_SEND_FAILED]
              /\ cec_events s' =
                 Z.lor (cec_events s) EC_MKBP_CEC_SEND_FAILED))).
Proof.
  destruct s as [st [[bf bi by_] ln rs ak] ev b g t t2 log].
  cbn zeta. unfold cec_event_timeout.
  cbn [cec_state cec_tx msgt len resends ack bit byte buf mkbp cec_events].
  destruct st;
    try (left; repeat enter; split; reflexivity);
    try (left;
         match goal with
         | |- context [if ?c then _ else _] => destruct c
         end; enter; split; reflexivity).
  unfold msgt_is_eom. cbn [bit byte].
  destruct (Z.eqb_spec ak 0) as [->|Hak]; cbn [negb].
  - destruct (Z.ltb_spec rs CEC_MAX_RESENDS).
    + left. enter. split; reflexivity.
    + right. enter. cbn. repeat split. right. repeat split. assumption.
  - destruct (Z.eqb_spec bi 0) as [->|Hbi]; cbn [negb Z.eqb].
    + destruct (Z.eqb_spec by_ ln) as [->|Hby]; cbn [Z.eqb].
      * right. enter. cbn. repeat split. left. repeat split. assumption.
      * left. enter. split; reflexivity.
    + left. enter. split; reflexivity.
Qed.

(** ** The host command *)

(** X5: in every reachable state the host command has a defined result
    (its copy stays within the buffer) and exactly three outcomes: a
    message of 0 or of more than 16 bytes is rejected as an invalid
    parameter and a message that arrives while a transfer is in progress
    as busy, both without any change of state; otherwise the command
    succeeds, the message is at the head of the buffer, its length is
    stored, timer 2 runs, and the state of the machine, the cursor, the
    resend counter, the pending events and timer 1 are as before. *)
Theorem hc_cec_write_outcomes (msg : list Z) (s : cec)
  (Hreach : reachable s) :
  exists r s',
    hc_cec_write msg s = Some (r, s')
    /\ ((length msg = 0%nat \/ (16 < length msg)%nat) ->
        r = EC_RES_INVALID_PARAM /\ s' = s)
    /\ ((1 <= length msg <= 16)%nat -> len (cec_tx s) <> 0 ->
        r = EC_RES_BUSY /\ s' = s)
    /\ ((1 <= length msg <= 16)%nat -> len (cec_tx s) = 0 ->
        r = EC_RES_SUCCESS
        /\ firstn (length msg) (buf (msgt (cec_tx s'))) = msg
        /\ length (buf (msgt (cec_tx s'))) = 16%nat
        /\ len (cec_tx s') = Z.of_nat (length msg)
        /\ tcnt2 s' = Some 0
        /\ cec_state s' = cec_state s
        /\ bit (msgt (cec_tx s')) = bit (msgt (cec_tx s))
        /\ byte (msgt (cec_tx s')) = byte (msgt (cec_tx s))
        /\ resends (cec_tx s') = resends (cec_tx s)
        /\ cec_events s' = cec_events s
        /\ mkbp s' = mkbp s
        /\ gpio_out s' = gpio_out s
        /\ tcnt1 s' = tcnt1 s).
Proof.
  pose proof (reachable_cursor_inv s Hreach) as (Hbuf & Hlen & _).
  unfold hc_cec_write.
  destruct (Z.eqb_spec (Z.of_nat (length msg)) 0) as [Hz|Hz]; cbn [orb].
  { do 2 eexists. split; [reflexivity|].
    repeat split; intros; try reflexivity; lia. }
  destruct (Z.ltb_spec MAX_CEC_MSG_LEN (Z.of_nat (length msg))) as [Hc|Hc];
    unfold MAX_CEC_MSG_LEN in Hc.
  { do 2 eexists. split; [reflexivity|].
    repeat split; intros; try reflexivity; lia. }
  assert (E8 : u8 (Z.of_nat (length msg)) = Z.of_nat (length msg))
    by (unfold u8; apply Z.mod_small; lia).
  rewrite E8.
  destruct (Z.eq_dec (len (cec_tx s)) 0) as [Hfree|Hbusy].
  - rewrite cec_send_free;
      [ | exact Hfree | lia | rewrite Hbuf; unfold MAX_CEC_MSG_LEN; lia ].
    cbn [Z.eqb negb]. do 2 eexists. split; [reflexivity|].
    split; [intros [C|C]; lia|]. split; [intros _ C; contradiction|].
    intros _ _.
    cbn [cec_state cec_tx msgt buf bit byte len resends cec_events mkbp
         gpio_out tcnt1 tcnt2].
    rewrite Nat2Z.id.
    destruct (memcpy_shape (buf (msgt (cec_tx s))) msg
                (Z.of_nat (length msg))) as (Hh & _ & Hl);
      [lia | rewrite Hbuf; unfold MAX_CEC_MSG_LEN; lia |].
    cbn zeta in Hh, Hl. rewrite Nat2Z.id in Hh, Hl.
    rewrite Hh, Hl, Hbuf, firstn_all.
    repeat split; reflexivity.
  - rewrite cec_send_busy by exact Hbusy.
    cbn [Z.eqb negb]. do 2 eexists. split; [reflexivity|].
    split; [intros [C|C]; lia|]. split; [intros _ _; split; reflexivity|].
    intros _ C. contradiction.
Qed.

Lemma hc_cec_write_outcomes_witness :
  exists r s',
    hc_cec_write [79; 130] header_last_bit = Some (r, s')
    /\ r = EC_RES_BUSY /\ s' = header_last_bit.
Proof.
  assert (Hreach : reachable header_last_bit).
  { unfold header_last_bit.
    destruct (start_transfer [64; 1] 0 (boot 1500)) as [s1|] eqn:E;
      [|apply reachable_boot].
    apply reachable_run.
    eapply reachable_start_transfer; [apply reachable_boot | exact E]. }
  destruct (hc_cec_write_outcomes [79; 130] header_last_bit Hreach)
    as (r & s' & E & _ & Hbusy & _).
  exists r, s'. split; [exact E|].
  apply Hbusy; [cbn; lia | vm_compute; discriminate].
Defined.

(** ** Delivery of the outcome *)

(** X6: an outcome passed to [send_mkbp_event] is OR-ed to what is
    pending; the next [cec_get_next_event] returns the pending mask, the
    new outcome included, and clears it, so that a second read returns 0;
    neither function touches the transfer, the state or the timers. *)
Theorem outcome_read_once (event : Z) (s : cec) :
  let s1 := send_mkbp_event event s in
  let r1 := cec_get_next_event s1 in
  let r2 := cec_get_next_event (snd r1) in
  fst r1 = Z.lor (cec_events s) event
  /\ Z.land (fst r1) event = event
  /\ Z.land (fst r1) (cec_events s) = cec_events s
  /\ fst r2 = 0
  /\ snd r2 = snd r1
  /\ cec_state (snd r1) = cec_state s
  /\ cec_tx (snd r1) = cec_tx s
  /\ tcnt1 (snd r1) = tcnt1 s
  /\ tcnt2 (snd r1) = tcnt2 s.
Proof.
  cbn zeta. cbn [send_mkbp_event cec_get_next_event fst snd cec_events
                 cec_state cec_tx tcnt1 tcnt2].
  repeat split.
  - apply Z.bits_inj'. intros i _.
    rewrite Z.land_spec, Z.lor_spec.
    destruct (Z.testbit (cec_events s) i), (Z.testbit event i); reflexivity.
  - apply Z.bits_inj'. intros i _.
    rewrite Z.land_spec, Z.lor_spec.
    destruct (Z.testbit (cec_events s) i), (Z.testbit event i); reflexivity.
Qed.

(** ** The start trigger *)

(** X7: the interrupt of the start trigger stops timer 2 at once, puts
    the machine in its free time, releases the line and arms timer 1
    with the free time that goes with the resend counter, whatever the
    clock basis; the message, its length, the cursor, the resend counter
    and the pending events are as before. *)
Theorem start_trigger_enters_free_time (line : Z) (s : cec) :
  let s' := cec_isr false true line s in
  cec_state s' = CEC_STATE_INITIATOR_FREE_TIME
  /\ tcnt2 s' = None
  /\ gpio_out s' = 1
  /\ tcnt1 s' = Some (if resends (cec_tx s) =? 0
                      then FREE_TIME_NI (apb1_freq_div_10k s)
                      else FREE_TIME_RS (apb1_freq_div_10k s))
  /\ cec_tx s' = cec_tx s
  /\ cec_events s' = cec_events s
  /\ mkbp s' = mkbp s
  /\ apb1_freq_div_10k s' = apb1_freq_div_10k s.
Proof.
  cbn zeta. unfold cec_isr, cec_event_tx.
  split; [apply enter_state_cec_state|].
  split; [|split; [|split]].
  - destruct (enter_state_soft line CEC_STATE_INITIATOR_FREE_TIME
                (tmr2_stop s)) as (g & t & ->). reflexivity.
  - unfold enter_state. cbv beta iota zeta. cbn [Z.leb Z.compare].
    match goal with
    | |- context [if ?c then _ else _] => destruct c
    end; reflexivity.
  - rewrite free_time_entry_arms. reflexivity.
  - destruct (enter_state_soft line CEC_STATE_INITIATOR_FREE_TIME
                (tmr2_stop s)) as (g & t & ->).
    repeat split; reflexivity.
Qed.

(** ** Invariants of the transfer *)

(** X8: in every reachable state the buffer holds 16 bytes, the stored
    length is 0 to 16, the resend counter never exceeds
    [CEC_MAX_RESENDS] and is 0 in the idle state, a transfer is in
    progress (length at least 1) whenever the machine is not idle, and
    timer 2 runs only in the idle state with a message stored. *)
Theorem transfer_invariants (s : cec) (Hreach : reachable s) :
  length (buf (msgt (cec_tx s))) = 16%nat
  /\ 0 <= len (cec_tx s) <= MAX_CEC_MSG_LEN
  /\ 0 <= resends (cec_tx s) <= CEC_MAX_RESENDS
  /\ (cec_state s = CEC_STATE_IDLE -> resends (cec_tx s) = 0)
  /\ (cec_state s <> CEC_STATE_IDLE -> 1 <= len (cec_tx s))
  /\ (tcnt2 s <> None ->
      cec_state s = CEC_STATE_IDLE /\ len (cec_tx s) <> 0).
Proof.
  pose proof (reachable_cursor_inv s Hreach) as Hinv.
  pose proof (cursor_inv_busy s Hinv) as Hbusy.
  destruct Hinv as (Hbuf & Hlen & Hrs & Ht2 & Hst).
  repeat match goal with |- _ /\ _ => split end;
    try assumption; try lia.
  intros E. rewrite E in Hst. lia.
Qed.

Lemma transfer_invariants_witness :
  0 <= resends (cec_tx header_last_bit) <= CEC_MAX_RESENDS
  /\ 1 <= len (cec_tx header_last_bit).
Proof.
  assert (Hreach : reachable header_last_bit).
  { unfold header_last_bit.
    destruct (start_transfer [64; 1] 0 (boot 1500)) as [s1|] eqn:E;
      [|apply reachable_boot].
    apply reachable_run.
    eapply reachable_start_transfer; [apply reachable_boot | exact E]. }
  destruct (transfer_invariants header_last_bit Hreach)
    as (_ & _ & Hrs & _ & Hbusy & _).
  split; [exact Hrs|]. apply Hbusy. vm_compute. discriminate.
Defined.

(** X9: whenever a bit of the header or of a data byte is on the line,
    the cursor is inside the declared message and inside the buffer and
    its bit offset is 0 to 7: the current-bit read neither meets a stale
    byte beyond the message nor shifts by a negative count, and it
    returns the message bit, most significant first. *)
Theorem sent_bit_is_message_bit (s : cec)
  (Hreach : reachable s)
  (Hst : sends_low (cec_state s) || sends_high (cec_state s) = true) :
  let m := msgt (cec_tx s) in
  0 <= byte m < len (cec_tx s)
  /\ len (cec_tx s) <= MAX_CEC_MSG_LEN
  /\ (Z.to_nat (byte m) < length (buf m))%nat
  /\ 0 <= bit m <= 7
  /\ negb (msgt_get_bit m =? 0) = Z.testbit (current_byte m) (7 - bit m).
Proof.
  pose proof (reachable_cursor_inv s Hreach) as (Hbuf & Hlen & _ & _ & Hcur).
  cbn zeta. unfold MAX_CEC_MSG_LEN in *.
  assert (H : 0 <= byte (msgt (cec_tx s)) < len (cec_tx s)
              /\ 0 <= bit (msgt (cec_tx s)) <= 7)
    by (destruct (cec_state s); try discriminate Hst; lia).
  destruct H as [Hby Hbi].
  repeat match goal with |- _ /\ _ => split end; try lia.
  rewrite msgt_get_bit_below_capacity by (unfold MAX_CEC_MSG_LEN; lia).
  fold (current_byte (msgt (cec_tx s))).
  rewrite land_single_bit by lia. apply negb_involutive.
Qed.

Lemma sent_bit_is_message_bit_witness :
  0 <= byte (msgt (cec_tx header_last_bit)) < len (cec_tx header_last_bit)
  /\ negb (msgt_get_bit (msgt (cec_tx header_last_bit)) =? 0) = false.
Proof.
  assert (Hreach : reachable header_last_bit).
  { unfold header_last_bit.
    destruct (start_transfer [64; 1] 0 (boot 1500)) as [s1|] eqn:E;
      [|apply reachable_boot].
    apply reachable_run.
    eapply reachable_start_transfer; [apply reachable_boot | exact E]. }
  destruct (sent_bit_is_message_bit header_last_bit Hreach eq_refl)
    as (Hby & _ & _ & _ & Hbit).
  split; [exact Hby|]. rewrite Hbit. reflexivity.
Defined.

(** ** Wave form *)

Lemma bit_periods_aux b :
  0 <= b -> 2400 * b < 2 ^ 32 ->
  ACK_HIGH_TIME b = (6 * b + 15 * b) / 2 - 6 * b
  /\ ACK_VERIFY_TIME b = 24 * b - (6 * b + 15 * b) / 2
  /\ (2 * ((6 * b + 15 * b) / 2) <= 21 * b
      /\ 21 * b < 2 * ((6 * b + 15 * b) / 2) + 2).
Proof.
  intros Hb Hfit.
  assert (E600 : APB1_TICKS b 600 = 6 * b)
    by (apply (APB1_TICKS_exact b 6); lia).
  assert (E1500 : APB1_TICKS b 1500 = 15 * b)
    by (apply (APB1_TICKS_exact b 15); lia).
  assert (E2400 : APB1_TICKS b 2400 = 24 * b)
    by (apply (APB1_TICKS_exact b 24); lia).
  assert (E1050 : APB1_TICKS b 1050 = (6 * b + 15 * b) / 2).
  { unfold APB1_TICKS. rewrite u32_small by lia.
    replace (1050 * b) with (50 * (21 * b)) by ring.
    change 100 with (50 * 2).
    rewrite Z.div_mul_cancel_l by lia. f_equal. ring. }
  assert (Hhalf : 2 * ((6 * b + 15 * b) / 2) <= 21 * b
                  /\ 21 * b < 2 * ((6 * b + 15 * b) / 2) + 2).
  { pose proof (Z.mul_div_le (6 * b + 15 * b) 2 ltac:(lia)).
    pose proof (Z.mul_succ_div_gt (6 * b + 15 * b) 2 ltac:(lia)). lia. }
  split; [|split; [|exact Hhalf]].
  - unfold ACK_HIGH_TIME, DATA_ONE_LOW, DATA_ZERO_LOW.
    rewrite E600, E1500.
    rewrite (u32_small (6 * b + 15 * b)) by lia.
    apply u32_small. lia.
  - unfold ACK_VERIFY_TIME, NOMINAL_BIT_TIME, NOMINAL_SAMPLE_TIME.
    rewrite E2400, E1050. apply u32_small. lia.
Qed.

Lemma timing_in_range b :
  in_range b ->
  (forall d, 0 < DATA_LOW b d < 2 ^ 31)
  /\ (forall d, 0 < DATA_HIGH b d < 2 ^ 31)
  /\ 0 < START_BIT_LOW b < 2 ^ 31
  /\ 0 < START_BIT_HIGH b < 2 ^ 31
  /\ 0 < FREE_TIME_RS b < 2 ^ 31
  /\ 0 < FREE_TIME_NI b < 2 ^ 31
  /\ 0 < ACK_HIGH_TIME b < 2 ^ 31
  /\ 0 < ACK_VERIFY_TIME b < 2 ^ 31.
Proof.
  intros [Hb Hfit].
  assert (T600 := APB1_TICKS_positive b 600 Hb Hfit ltac:(lia)).
  assert (T900 := APB1_TICKS_positive b 900 Hb Hfit ltac:(lia)).
  assert (T1500 := APB1_TICKS_positive b 1500 Hb Hfit ltac:(lia)).
  assert (T1800 := APB1_TICKS_positive b 1800 Hb Hfit ltac:(lia)).
  assert (T800 := APB1_TICKS_positive b 800 Hb Hfit ltac:(lia)).
  assert (T3700 := APB1_TICKS_positive b 3700 Hb Hfit ltac:(lia)).
  assert (E2400 : APB1_TICKS b 2400 = 24 * b)
    by (apply (APB1_TICKS_exact b 24); lia).
  pose proof (bit_periods_aux b) as Haux.
  split; [|split; [|split; [|split; [|split; [|split; [|split]]]]]].
  - intros d; unfold DATA_LOW, DATA_ONE_LOW, DATA_ZERO_LOW;
      destruct (negb (d =? 0)); tauto.
  - intros d; unfold DATA_HIGH, DATA_ONE_HIGH, DATA_ZERO_HIGH;
      destruct (negb (d =? 0)); tauto.
  - apply T3700.
  - apply T800.
  - unfold FREE_TIME_RS, NOMINAL_BIT_TIME; rewrite E2400, u32_small; lia.
  - unfold FREE_TIME_NI, NOMINAL_BIT_TIME; rewrite E2400, u32_small; lia.
  - destruct Haux as (Eah & _ & Hhalf); [lia | lia |]. rewrite Eah. lia.
  - destruct Haux as (_ & Eav & Hhalf); [lia | lia |]. rewrite Eav. lia.
Qed.

Lemma arm_eq T s :
  0 < T < 2 ^ 31 ->
  (if 0 <=? to_int T then tmr_oneshot_start (to_int T) s else s)
  = tmr_oneshot_start T s.
Proof.
  intros H. rewrite to_int_small by lia.
  destruct (Z.leb_spec 0 T); [reflexivity | lia].
Qed.

(** What an entry action leaves on the pin and in timer 1. *)
Lemma enter_state_wave line X s :
  in_range (apb1_freq_div_10k s) ->
  X <> CEC_STATE_IDLE ->
  let s' := enter_state line X s in
  (X = CEC_STATE_INITIATOR_ACK_VERIFY -> gpio_out s' = gpio_out s)
  /\ (X <> CEC_STATE_INITIATOR_ACK_VERIFY -> pin_of X = Some (gpio_out s'))
  /\ ticks_of (apb1_freq_div_10k s') X (cec_tx s') = tcnt1 s'.
Proof.
  intros Hrange HX.
  destruct (timing_in_range _ Hrange)
    as (Hdl & Hdh & Hsl & Hsh & Hrs & Hni & Hah & Hav).
  destruct s as [st [[bf bi by_] ln rs ak] ev b g t t2 log].
  cbn [apb1_freq_div_10k] in *.
  cbn zeta. unfold enter_state.
  destruct X; try contradiction; cbv beta iota zeta;
    cbn [Z.leb Z.compare set_cec_state apb1_freq_div_10k cec_tx resends
         cec_state cec_events gpio_out tcnt1 tcnt2 mkbp];
    try destruct (negb (rs =? 0)) eqn:Hresend;
    rewrite arm_eq
      by first [apply Hdl | apply Hdh | assumption];
    cbn [tmr_oneshot_start gpio_set_level set_cec_state set_cec_tx
         set_msgt set_ack
         set_bit set_byte cec_state cec_tx cec_events apb1_freq_div_10k
         gpio_out tcnt1 tcnt2 mkbp ticks_of pin_of msgt len resends ack
         buf bit byte];
    rewrite ?Hresend;
    (split; [intros E; first [discriminate E | reflexivity]|]);
    (split; [intros E; first [reflexivity | contradiction]|]);
    reflexivity.
Qed.

Lemma enter_state_basis line X s :
  apb1_freq_div_10k (enter_state line X s) = apb1_freq_div_10k s.
Proof. destruct (enter_state_soft line X s) as (g & t & ->). reflexivity. Qed.

Lemma wave_inv_enter line X s :
  in_range (apb1_freq_div_10k s) ->
  (X = CEC_STATE_INITIATOR_ACK_VERIFY -> gpio_out s = 1) ->
  wave_inv (enter_state line X s).
Proof.
  intros Hrange Hverify Hne.
  rewrite enter_state_cec_state in Hne |- *.
  destruct (enter_state_wave line X s Hrange Hne) as (Hv & Hp & Ht).
  split; [|exact Ht].
  destruct (enum_cec_state_eq_dec X CEC_STATE_INITIATOR_ACK_VERIFY)
    as [E|E].
  - rewrite (Hv E), (Hverify E), E. reflexivity.
  - exact (Hp E).
Qed.

Lemma timeout_basis l s :
  apb1_freq_div_10k (cec_event_timeout l s) = apb1_freq_div_10k s.
Proof.
  unfold cec_event_timeout.
  destruct (cec_state s); try reflexivity;
    repeat match goal with
      | |- context [if ?c then _ else _] => destruct c
      end;
    cbn [send_mkbp_event apb1_freq_div_10k];
    rewrite ?enter_state_basis; reflexivity.
Qed.

Lemma wave_inv_timeout l s :
  in_range (apb1_freq_div_10k s) ->
  wave_inv s -> wave_inv (cec_event_timeout l s).
Proof.
  intros Hrange Hinv. unfold cec_event_timeout.
  destruct (cec_state s) eqn:Hst;
    try exact Hinv;
    repeat match goal with
      | |- context [if ?c then _ else _] => destruct c
      end;
    try (apply wave_inv_enter; [exact Hrange | intros E; discriminate E]);
    try (intros Hne; exfalso; apply Hne;
         cbn [send_mkbp_event cec_state]; apply enter_state_cec_state).
  apply wave_inv_enter; [exact Hrange|]. intros _.
  unfold wave_inv in Hinv. rewrite Hst in Hinv.
  destruct Hinv as [Hpin _]; [discriminate|].
  cbn [pin_of] in Hpin. congruence.
Qed.

Lemma wave_inv_isr tc td l s :
  in_range (apb1_freq_div_10k s) ->
  wave_inv s -> wave_inv (cec_isr tc td l s).
Proof.
  intros Hrange Hinv. unfold cec_isr.
  destruct td.
  - apply wave_inv_enter; [|intros E; discriminate E].
    destruct tc; cbn [tmr2_stop apb1_freq_div_10k];
      rewrite ?timeout_basis; exact Hrange.
  - destruct tc; [now apply wave_inv_timeout | exact Hinv].
Qed.

Lemma isr_basis tc td l s :
  apb1_freq_div_10k (cec_isr tc td l s) = apb1_freq_div_10k s.
Proof.
  unfold cec_isr, cec_event_tx.
  destruct td, tc; rewrite ?enter_state_basis;
    cbn [tmr2_stop apb1_freq_div_10k]; rewrite ?timeout_basis; reflexivity.
Qed.

(** The host command changes timer 2 and, in the idle state only, the
    stored message. *)
Lemma hc_cec_write_frame msg s r s' :
  hc_cec_write msg s = Some (r, s') ->
  cec_state s' = cec_state s
  /\ apb1_freq_div_10k s' = apb1_freq_div_10k s
  /\ gpio_out s' = gpio_out s
  /\ tcnt1 s' = tcnt1 s
  /\ (len (cec_tx s) <> 0 -> s' = s).
Proof.
  unfold hc_cec_write.
  destruct ((Z.of_nat (length msg) =? 0)
            || (MAX_CEC_MSG_LEN <? Z.of_nat (length msg))).
  { intros E. injection E as _ <-. repeat split. }
  unfold cec_send.
  destruct (Z.eqb_spec (len (cec_tx s)) 0) as [Hz|Hz]; cbn [negb].
  - destruct (memcpy _ _ _); [|discriminate].
    cbn [Z.eqb negb]. intros E. injection E as _ <-.
    repeat split. intros C. contradiction.
  - cbn [Z.eqb negb]. intros E. injection E as _ <-. repeat split.
Qed.

Lemma reachable_wave_inv s :
  reachable s -> in_range (apb1_freq_div_10k s) -> wave_inv s.
Proof.
  induction 1 as [s Hinit | s tc td l Hreach IH Harmed
                 | s msg r s' Hreach IH Hwrite | s Hreach IH];
    intros Hrange.
  - intros Hne. destruct Hinit as (Hst & _). contradiction.
  - rewrite isr_basis in Hrange. now apply wave_inv_isr; auto.
  - destruct (hc_cec_write_frame _ _ _ _ Hwrite)
      as (Hst & Hb & Hg & Ht & Hsame).
    rewrite Hb in Hrange. specialize (IH Hrange).
    intros Hne. rewrite Hst in Hne.
    pose proof (cursor_inv_busy s (reachable_cursor_inv s Hreach) Hne).
    rewrite (Hsame ltac:(lia)). exact (IH Hne).
  - exact (IH Hrange).
Qed.

(** X10: with a clock basis in range ([0 < b], [3700 * b < 2^32]), in
    every reachable state but the idle one the line is held at the level
    of the state (low in the low half of a bit, high in the free time, in
    the high half of a bit and in the verification state) and timer 1 is
    armed with the duration of the state, a positive count: the machine
    never stalls in the middle of a frame. *)
Theorem wave_form (s : cec)
  (Hreach : reachable s)
  (Hrange : in_range (apb1_freq_div_10k s))
  (Hbusy : cec_state s <> CEC_STATE_IDLE) :
  pin_of (cec_state s) = Some (gpio_out s)
  /\ ticks_of (apb1_freq_div_10k s) (cec_state s) (cec_tx s) = tcnt1 s
  /\ exists T, tcnt1 s = Some T /\ 0 < T < 2 ^ 31.
Proof.
  destruct (reachable_wave_inv s Hreach Hrange Hbusy) as [Hpin Hticks].
  split; [exact Hpin|]. split; [exact Hticks|].
  rewrite <- Hticks.
  destruct (timing_in_range _ Hrange)
    as (Hdl & Hdh & Hsl & Hsh & Hrs & Hni & Hah & Hav).
  destruct (cec_state s); try contradiction; cbn [ticks_of];
    try destruct (negb (resends (cec_tx s) =? 0));
    eexists; (split; [reflexivity|]);
    first [apply Hdl | apply Hdh | assumption].
Qed.

Lemma wave_form_witness :
  gpio_out header_last_bit = 0 /\ tcnt1 header_last_bit = Some 22500.
Proof.
  assert (Hreach : reachable header_last_bit).
  { unfold header_last_bit.
    destruct (start_transfer [64; 1] 0 (boot 1500)) as [s1|] eqn:E;
      [|apply reachable_boot].
    apply reachable_run.
    eapply reachable_start_transfer; [apply reachable_boot | exact E]. }
  assert (Hrange : in_range (apb1_freq_div_10k header_last_bit))
    by (vm_compute; split; reflexivity).
  assert (Hbusy : cec_state header_last_bit <> CEC_STATE_IDLE)
    by (vm_compute; discriminate).
  destruct (wave_form header_last_bit Hreach Hrange Hbusy)
    as (Hpin & Hticks & _).
  split.
  - assert (E : Some (gpio_out header_last_bit) = Some 0)
      by (rewrite <- Hpin; vm_compute; reflexivity).
    exact (f_equal (fun o => match o with Some x => x | None => 0 end) E).
  - rewrite <- Hticks. vm_compute. reflexivity.
Defined.

(** X11: with a clock basis in range, what is on the line in a reachable
    state is the message: while a header or data bit is sent, the low
    (resp. high) half lasts the low (resp. high) time of a one if bit
    [7 - bit offset] of the byte under the cursor is set and that of a
    zero otherwise; the EOM bit is a one exactly when the cursor stands
    at the end of the message; the initiator sends a one in the ACK
    slot. *)
Theorem encoded_bits (s : cec)
  (Hreach : reachable s)
  (Hrange : in_range (apb1_freq_div_10k s)) :
  let b := apb1_freq_div_10k s in
  let m := msgt (cec_tx s) in
  let one := Z.testbit (current_byte m) (7 - bit m) in
  let last := byte m =? len (cec_tx s) in
  (sends_low (cec_state s) = true ->
   gpio_out s = 0
   /\ tcnt1 s = Some (if one then DATA_ONE_LOW b else DATA_ZERO_LOW b))
  /\ (sends_high (cec_state s) = true ->
      gpio_out s = 1
      /\ tcnt1 s = Some (if one then DATA_ONE_HIGH b else DATA_ZERO_HIGH b))
  /\ (cec_state s = CEC_STATE_INITIATOR_EOM_LOW ->
      gpio_out s = 0
      /\ tcnt1 s = Some (if last then DATA_ONE_LOW b else DATA_ZERO_LOW b))
  /\ (cec_state s = CEC_STATE_INITIATOR_EOM_HIGH ->
      gpio_out s = 1
      /\ tcnt1 s = Some (if last then DATA_ONE_HIGH b else DATA_ZERO_HIGH b))
  /\ (cec_state s = CEC_STATE_INITIATOR_ACK_LOW ->
      gpio_out s = 0 /\ tcnt1 s = Some (DATA_ONE_LOW b)).
Proof.
  pose proof (reachable_wave_inv s Hreach Hrange) as Hwave.
  pose proof (reachable_cursor_inv s Hreach) as (_ & Hlen & _ & _ & Hcur).
  unfold wave_inv in Hwave. unfold MAX_CEC_MSG_LEN in Hlen.
  cbn zeta.
  assert (Hbit : sends_low (cec_state s) || sends_high (cec_state s) = true ->
                 negb (msgt_get_bit (msgt (cec_tx s)) =? 0)
                 = Z.testbit (current_byte (msgt (cec_tx s)))
                     (7 - bit (msgt (cec_tx s)))).
  { intros Hst.
    assert (H : 0 <= byte (msgt (cec_tx s)) < len (cec_tx s)
                /\ 0 <= bit (msgt (cec_tx s)) <= 7)
      by (destruct (cec_state s); try discriminate Hst; lia).
    rewrite msgt_get_bit_below_capacity by (unfold MAX_CEC_MSG_LEN; lia).
    fold (current_byte (msgt (cec_tx s))).
    rewrite land_single_bit by lia. apply negb_involutive. }
  assert (Heom : cec_state s = CEC_STATE_INITIATOR_EOM_LOW
                 \/ cec_state s = CEC_STATE_INITIATOR_EOM_HIGH ->
                 negb (msgt_is_eom (msgt (cec_tx s)) (len (cec_tx s)) =? 0)
                 = (byte (msgt (cec_tx s)) =? len (cec_tx s))).
  { intros Hst. unfold msgt_is_eom.
    assert (H : bit (msgt (cec_tx s)) = 0)
      by (destruct Hst as [E|E]; rewrite E in Hcur; lia).
    rewrite H. cbn [Z.eqb negb].
    destruct (byte (msgt (cec_tx s)) =? len (cec_tx s)); reflexivity. }
  repeat match goal with |- _ /\ _ => split end; intros Hst.
  - specialize (Hbit ltac:(rewrite Hst; reflexivity)).
    destruct (cec_state s); try discriminate Hst;
      (destruct Hwave as [Hpin Ht]; [discriminate|]);
      cbn [pin_of ticks_of] in Hpin, Ht; unfold DATA_LOW in Ht;
      rewrite Hbit in Ht; split; congruence.
  - specialize (Hbit ltac:(rewrite Hst; apply orb_true_r)).
    destruct (cec_state s); try discriminate Hst;
      (destruct Hwave as [Hpin Ht]; [discriminate|]);
      cbn [pin_of ticks_of] in Hpin, Ht; unfold DATA_HIGH in Ht;
      rewrite Hbit in Ht; split; congruence.
  - specialize (Heom (or_introl Hst)). rewrite Hst in Hwave.
    destruct Hwave as [Hpin Ht]; [discriminate|].
    cbn [pin_of ticks_of] in Hpin, Ht. unfold DATA_LOW in Ht.
    rewrite Heom in Ht. split; congruence.
  - specialize (Heom (or_intror Hst)). rewrite Hst in Hwave.
    destruct Hwave as [Hpin Ht]; [discriminate|].
    cbn [pin_of ticks_of] in Hpin, Ht. unfold DATA_HIGH in Ht.
    rewrite Heom in Ht. split; congruence.
  - rewrite Hst in Hwave.
    destruct Hwave as [Hpin Ht]; [discriminate|].
    cbn [pin_of ticks_of] in Hpin, Ht. unfold DATA_LOW in Ht.
    cbn [Z.eqb negb] in Ht. split; congruence.
Qed.

Lemma encoded_bits_witness :
  gpio_out header_last_bit = 0
  /\ tcnt1 header_last_bit = Some (DATA_ZERO_LOW 1500).
Proof.
  assert (Hreach : reachable header_last_bit).
  { unfold header_last_bit.
    destruct (start_transfer [64; 1] 0 (boot 1500)) as [s1|] eqn:E;
      [|apply reachable_boot].
    apply reachable_run.
    eapply reachable_start_transfer; [apply reachable_boot | exact E]. }
  assert (Hrange : in_range (apb1_freq_div_10k header_last_bit))
    by (vm_compute; split; reflexivity).
  pose proof (encoded_bits header_last_bit Hreach Hrange) as (Hlow & _).
  exact (Hlow eq_refl).
Defined.

(** ** Resend *)

(** X12: a refused ACK sample restarts the frame whatever the block it
    follows: from the high half of any ACK bit, with fewer than
    [CEC_MAX_RESENDS] resends so far, the refused sample and the next
    expiry lead to the free-time state with the resend counter
    incremented, the message, its length and the pending events as they
    were, and the expiry after that enters the start bit with the cursor
    at {0,0}. *)
Theorem refusal_restarts_frame (l1 l2 : Z) (s : cec)
  (Hst : cec_state s = CEC_STATE_INITIATOR_ACK_HIGH)
  (Hno : refused (cec_tx s) l1)
  (Hrs : 0 <= resends (cec_tx s) < CEC_MAX_RESENDS) :
  let s' := run [l1; l2] s in
  cec_state s' = CEC_STATE_INITIATOR_FREE_TIME
  /\ resends (cec_tx s') = resends (cec_tx s) + 1
  /\ msgt (cec_tx s') = msgt (cec_tx s)
  /\ len (cec_tx s') = len (cec_tx s)
  /\ mkbp s' = mkbp s
  /\ cec_events s' = cec_events s
  /\ (forall l3,
        cec_state (cec_event_timeout l3 s') = CEC_STATE_INITIATOR_START_LOW
        /\ msgt (cec_tx (cec_event_timeout l3 s'))
           = Msgt (buf (msgt (cec_tx s))) 0 0).
Proof.
  destruct s as [st [[bf bi by_] ln rs ak] ev b g t t2 log].
  cbn [cec_state cec_tx resends] in Hst, Hno, Hrs. subst st.
  cbn zeta. rewrite !run_cons. cbn [run].
  destruct (sample_phase l1 (Tx (Msgt bf bi by_) ln rs ak) ev b g t t2 log)
    as (g1 & t1 & ->).
  rewrite (sample_refused _ _ _ _ _ Hno).
  destruct (verify_resend l2 (Msgt bf bi by_) ln rs ev b g1 t1 t2 log Hrs)
    as (g2 & t3 & ->).
  cbn [cec_state cec_tx resends msgt len mkbp cec_events buf].
  repeat split; try reflexivity;
    destruct (start_bit_resets l3 bf bi by_ ln (rs + 1) 0 ev b g2 t3 t2 log)
      as [H1 H2]; assumption.
Qed.

Lemma refusal_restarts_frame_witness :
  let s := Cec CEC_STATE_INITIATOR_ACK_HIGH
               (Tx (Msgt (64 :: 1 :: repeat 0 14%nat) 0 2) 2 3 1)
               0 1500 1 (Some 6750) None [] in
  cec_state (run [1; 0] s) = CEC_STATE_INITIATOR_FREE_TIME
  /\ resends (cec_tx (run [1; 0] s)) = 4.
Proof.
  intros s.
  assert (Hno : refused (cec_tx s) 1) by (vm_compute; discriminate).
  assert (Hrs : 0 <= resends (cec_tx s) < CEC_MAX_RESENDS)
    by (vm_compute; split; [discriminate | reflexivity]).
  destruct (refusal_restarts_frame 1 0 s eq_refl Hno Hrs) as (H1 & H2 & _).
  split; [exact H1 | exact H2].
Defined.

(** ** After the outcome *)

Lemma timeout_mkbp_len l s :
  mkbp (cec_event_timeout l s) <> mkbp s ->
  len (cec_tx (cec_event_timeout l s)) = 0.
Proof.
  destruct s as [st [[bf bi by_] ln rs ak] ev b g t t2 log].
  unfold cec_event_timeout.
  cbn [cec_state cec_tx msgt len resends ack bit byte buf mkbp].
  destruct st;
    repeat match goal with
      | |- context [if ?c then _ else _] => destruct c
      end;
    try enter; cbn; intros H; try reflexivity; now contradiction H.
Qed.

(** X13: as soon as an expiry has recorded an outcome, success or
    failure, the driver accepts the next message: the host command with a
    message of 1 to 16 bytes succeeds and stores it. *)
Theorem accepts_after_outcome (l : Z) (msg : list Z) (s : cec)
  (Hreach : reachable s)
  (Hout : mkbp (cec_event_timeout l s) <> mkbp s)
  (Hmsg : (1 <= length msg <= 16)%nat) :
  exists s',
    hc_cec_write msg (cec_event_timeout l s) = Some (EC_RES_SUCCESS, s')
    /\ firstn (length msg) (buf (msgt (cec_tx s'))) = msg
    /\ len (cec_tx s') = Z.of_nat (length msg)
    /\ tcnt2 s' = Some 0.
Proof.
  assert (Hreach' : reachable (cec_event_timeout l s)).
  { change (cec_event_timeout l s) with (cec_isr true false l s).
    apply reach_isr; [exact Hreach | discriminate]. }
  pose proof (timeout_mkbp_len l s Hout) as Hlen.
  pose proof (reachable_idle _ Hreach' Hlen) as Hidle.
  pose proof (reachable_cursor_inv _ Hreach') as (Hbuf & _).
  set (s1 := cec_event_timeout l s) in *.
  unfold hc_cec_write.
  destruct (Z.eqb_spec (Z.of_nat (length msg)) 0) as [C|_]; [lia|].
  destruct (Z.ltb_spec MAX_CEC_MSG_LEN (Z.of_nat (length msg))) as [C|_];
    [unfold MAX_CEC_MSG_LEN in C; lia|].
  cbn [orb].
  assert (E : u8 (Z.of_nat (length msg)) = Z.of_nat (length msg))
    by (unfold u8; apply Z.mod_small; lia).
  rewrite E.
  rewrite cec_send_free;
    [ | exact Hlen | lia | rewrite Hbuf; unfold MAX_CEC_MSG_LEN; lia ].
  cbn [Z.eqb negb]. eexists. split; [reflexivity|].
  cbn [cec_tx msgt buf len tcnt2].
  rewrite Nat2Z.id, firstn_all.
  rewrite firstn_app, Nat.sub_diag, firstn_O, app_nil_r, firstn_all.
  repeat split; reflexivity.
Qed.

Lemma accepts_after_outcome_witness :
  exists s',
    hc_cec_write [79; 54] (cec_event_timeout 0 last_verify)
    = Some (EC_RES_SUCCESS, s')
    /\ len (cec_tx s') = 2.
Proof.
  assert (Hreach : reachable last_verify).
  { unfold last_verify.
    destruct (start_transfer [64; 1] 0 (boot 1500)) as [s1|] eqn:E;
      [|apply reachable_boot].
    apply reachable_run.
    eapply reachable_start_transfer; [apply reachable_boot | exact E]. }
  assert (Hout : mkbp (cec_event_timeout 0 last_verify) <> mkbp last_verify)
    by (vm_compute; discriminate).
  assert (Hmsg : (1 <= length [79; 54] <= 16)%nat) by (cbn; lia).
  destruct (accepts_after_outcome 0 [79; 54] last_verify Hreach Hout Hmsg)
    as (s' & E & _ & Hlen & _).
  exists s'. split; [exact E | exact Hlen].
Defined.

(** ** Initialisation *)

(** X14: [cec_init] stores the APB1 frequency divided by 10000 and
    changes nothing else; for every frequency from 10 kHz up to the
    largest [int] the stored clock basis is in range, so that no product
    of the timing table wraps around. *)
Theorem cec_init_in_range (freq : Z) (s : cec)
  (Hfreq : 10000 <= freq < 2 ^ 31) :
  apb1_freq_div_10k (cec_init freq s) = freq / 10000
  /\ in_range (apb1_freq_div_10k (cec_init freq s))
  /\ cec_state (cec_init freq s) = cec_state s
  /\ cec_tx (cec_init freq s) = cec_tx s
  /\ cec_events (cec_init freq s) = cec_events s.
Proof.
  cbn [cec_init apb1_freq_div_10k cec_state cec_tx cec_events].
  rewrite Z.quot_div_nonneg by lia.
  assert (1 <= freq / 10000) by (apply Z.div_le_lower_bound; lia).
  assert (freq / 10000 < 214749) by (apply Z.div_lt_upper_bound; lia).
  rewrite u32_small by lia.
  unfold in_range. repeat split; lia.
Qed.

Lemma cec_init_in_range_witness :
  apb1_freq_div_10k (cec_init 15000000 (boot 0)) = 1500
  /\ in_range (apb1_freq_div_10k (cec_init 15000000 (boot 0))).
Proof.
  destruct (cec_init_in_range 15000000 (boot 0) ltac:(lia)) as (H1 & H2 & _).
  split; [exact H1 | exact H2].
Defined.

(** ** Board: wake events *)

Lemma land_u32_lnot_zero (mask events : Z) :
  0 <= events < 2 ^ 32 ->
  Z.land events (u32 (Z.lnot mask)) = 0
  <-> (forall i, 0 <= i -> Z.testbit events i = true ->
                 Z.testbit mask i = true).
Proof.
  intros Hev.
  assert (Hhigh : forall i, 32 <= i -> Z.testbit events i = false).
  { intros i Hi. rewrite <- (Z.mod_small events (2 ^ 32)) by lia.
    apply Z.mod_pow2_bits_high. lia. }
  unfold u32. split.
  - intros H i Hi Hbit.
    destruct (Z.lt_ge_cases i 32) as [Hlow|Hup].
    + assert (Hz : Z.testbit (Z.land events (Z.lnot mask mod 2 ^ 32)) i
                   = false) by (rewrite H; apply Z.bits_0).
      rewrite Z.land_spec, Hbit, Z.mod_pow2_bits_low in Hz by lia.
      rewrite Z.lnot_spec in Hz by lia. cbn [andb] in Hz.
      destruct (Z.testbit mask i); [reflexivity | discriminate Hz].
    + rewrite Hhigh in Hbit by lia. discriminate Hbit.
  - intros H. apply Z.bits_inj'. intros i Hi.
    rewrite Z.land_spec, Z.bits_0.
    destruct (Z.testbit events i) eqn:Hbit; [|reflexivity].
    cbn [andb].
    destruct (Z.lt_ge_cases i 32) as [Hlow|Hup].
    + rewrite Z.mod_pow2_bits_low, Z.lnot_spec by lia.
      rewrite (H i Hi Hbit). reflexivity.
    + rewrite Hhigh in Hbit by lia. discriminate Hbit.
Qed.

(** X15: [board_process_wake_events] leaves the wake pin high exactly
    when every active wake event belongs to the power-button mask (in
    particular when no event is active or the power button alone is), and
    drives it low as soon as any other event is active. *)
Theorem wake_pin_level (mask events : Z)
  (Hev : 0 <= events < 2 ^ 32) :
  (board_process_wake_events mask events = 1
   <-> (forall i, 0 <= i -> Z.testbit events i = true ->
                  Z.testbit mask i = true))
  /\ (board_process_wake_events mask events = 0
      <-> (exists i, 0 <= i /\ Z.testbit events i = true
                     /\ Z.testbit mask i = false)).
Proof.
  pose proof (land_u32_lnot_zero mask events Hev) as Hz.
  unfold board_process_wake_events.
  destruct (Z.eqb_spec (Z.land events (u32 (Z.lnot mask))) 0) as [E|E];
    cbn [negb].
  - split; split.
    + intros _. now apply Hz.
    + reflexivity.
    + discriminate.
    + intros (i & Hi & Hbit & Hm).
      rewrite (proj1 Hz E i Hi Hbit) in Hm. discriminate Hm.
  - split; split.
    + discriminate.
    + intros H. elim E. now apply Hz.
    + intros _.
      destruct (Z.eq_dec (Z.land events (u32 (Z.lnot mask))) 0) as [C|_];
        [contradiction|].
      assert (Hex : exists i, Z.testbit
                      (Z.land events (u32 (Z.lnot mask))) i = true).
      { exists (Z.log2 (Z.land events (u32 (Z.lnot mask)))).
        apply Z.bit_log2.
        assert (0 <= Z.land events (u32 (Z.lnot mask)))
          by (apply Z.land_nonneg; left; lia).
        lia. }
      destruct Hex as (i & Hbit).
      assert (Hi : 0 <= i).
      { destruct (Z.lt_ge_cases i 0) as [Hneg|Hpos]; [|exact Hpos].
        rewrite Z.testbit_neg_r in Hbit by exact Hneg. discriminate Hbit. }
      rewrite Z.land_spec in Hbit. apply andb_true_iff in Hbit.
      destruct Hbit as [Hbe Hbm].
      exists i. split; [exact Hi|]. split; [exact Hbe|].
      unfold u32 in Hbm.
      destruct (Z.lt_ge_cases i 32) as [Hlow|Hup].
      * rewrite Z.mod_pow2_bits_low, Z.lnot_spec in Hbm by lia.
        destruct (Z.testbit mask i); [discriminate Hbm | reflexivity].
      * rewrite Z.mod_pow2_bits_high in Hbm by lia. discriminate Hbm.
    + reflexivity.
Qed.

Lemma wake_pin_level_witness :
  board_process_wake_events 4 4 = 1 /\ board_process_wake_events 4 5 = 0.
Proof.
  destruct (wake_pin_level 4 4 ltac:(lia)) as [_ H0].
  destruct (wake_pin_level 4 5 ltac:(lia)) as [_ H1].
  split.
  - reflexivity.
  - apply H1. exists 0. vm_compute. repeat split; discriminate.
Defined.

(** ** Port 80 history *)

Lemma store_length i v l : length (store i v l) = length l.
Proof.
  revert i. induction l as [|x r IH]; intros [|i]; cbn [store length];
    try reflexivity. now rewrite IH.
Qed.

Lemma nth_store_same i v l d :
  (i < length l)%nat -> nth i (store i v l) d = v.
Proof.
  revert i. induction l as [|x r IH]; intros [|i] H; cbn [length] in H;
    cbn [store nth]; try lia; try reflexivity.
  apply IH. lia.
Qed.

Lemma nth_store_other i j v l d :
  i <> j -> nth j (store i v l) d = nth j l d.
Proof.
  revert i j. induction l as [|x r IH]; intros [|i] [|j] H;
    cbn [store nth]; try reflexivity; try contradiction.
  apply IH. congruence.
Qed.

Lemma skipn_nth_cons (i : nat) (l : list Z) :
  (i < length l)%nat -> skipn i l = nth i l 0 :: skipn (S i) l.
Proof.
  revert i. induction l as [|x r IH]; intros [|i] H; cbn [length] in H;
    try lia; try reflexivity.
  cbn [skipn nth]. rewrite IH by lia. reflexivity.
Qed.

Lemma mod16_differs (i n : Z) :
  i < n < i + 16 -> i mod 16 <> n mod 16.
Proof.
  intros H E.
  pose proof (Z.div_mod i 16 ltac:(lia)).
  pose proof (Z.div_mod n 16 ltac:(lia)).
  lia.
Qed.

(** After the writes of [ds] the ring holds the last 16 of them, each at
    its index modulo 16. *)
Lemma port_80_writes_inv (ds : list Z) :
  Z.of_nat (length ds) < 2 ^ 31 ->
  let p := port_80_writes ds port80_reset in
  writes p = Z.of_nat (length ds)
  /\ length (history p) = 16%nat
  /\ scroll p = 0
  /\ (forall i, 0 <= i < Z.of_nat (length ds) ->
                Z.of_nat (length ds) - 16 <= i ->
                nth (Z.to_nat (i mod 16)) (history p) 0
                = u8 (nth (Z.to_nat i) ds 0)).
Proof.
  induction ds as [|d ds IH] using rev_ind; intros Hn.
  - cbn. repeat split; try reflexivity. intros i Hi. lia.
  - rewrite length_app in Hn. cbn [length] in Hn.
    destruct IH as (Hw & Hl & Hs & Hh); [lia|].
    cbn zeta. unfold port_80_writes in *. rewrite fold_left_app.
    cbn [fold_left]. cbn zeta in Hw, Hl, Hs, Hh.
    set (p := fold_left (fun p d => port_80_write d p) ds port80_reset) in *.
    unfold port_80_write. cbn [writes history scroll].
    rewrite Hw, length_app. cbn [length].
    assert (Hu : u32 (Z.of_nat (length ds)) = Z.of_nat (length ds))
      by (apply u32_small; lia).
    rewrite Hu. unfold HISTORY_LEN.
    assert (Hidx : 0 <= Z.of_nat (length ds) mod 16 < 16)
      by (apply Z.mod_pos_bound; lia).
    repeat split.
    + rewrite u32_small, to_int_small by lia. lia.
    + rewrite store_length. exact Hl.
    + exact Hs.
    + intros i Hi Hlow.
      destruct (Z.eq_dec i (Z.of_nat (length ds))) as [->|Hne].
      * rewrite nth_store_same by lia.
        rewrite Nat2Z.id, app_nth2, Nat.sub_diag by lia. reflexivity.
      * rewrite nth_store_other.
        -- rewrite Hh by lia. rewrite app_nth1 by lia. reflexivity.
        -- intros E. apply Z2Nat.inj in E; try lia.
           ++ symmetry in E. revert E. apply mod16_differs. lia.
           ++ apply Z.mod_pos_bound. lia.
Qed.

Lemma print_history_spec (ds h : list Z) (n : nat) :
  forall i,
    0 <= i -> i + Z.of_nat n = Z.of_nat (length ds) ->
    Z.of_nat (length ds) < 2 ^ 31 ->
    (forall k, i <= k < Z.of_nat (length ds) ->
               nth (Z.to_nat (k mod 16)) h 0 = u8 (nth (Z.to_nat k) ds 0)) ->
    print_history n i (Z.of_nat (length ds)) h
    = map HexByte (map u8 (skipn (Z.to_nat i) ds)).
Proof.
  induction n as [|n IH]; intros i Hi Hsum Hfit Hh; cbn [print_history].
  - rewrite skipn_all2 by lia. reflexivity.
  - destruct (Z.ltb_spec i (Z.of_nat (length ds))); [|lia].
    rewrite u32_small by lia. unfold HISTORY_LEN.
    rewrite Hh by lia.
    rewrite (skipn_nth_cons (Z.to_nat i)) by lia.
    cbn [map]. f_equal.
    rewrite IH; [ | lia | lia | exact Hfit | intros k Hk; apply Hh; lia ].
    replace (Z.to_nat (i + 1)) with (S (Z.to_nat i)) by lia.
    reflexivity.
Qed.

(** X16: after any sequence of fewer than [2^31] port 80 writes, the
    console command without argument prints the last writes, at most 16
    of them, oldest first and each reduced to a byte, followed by the
    end mark; it returns [EC_SUCCESS] and leaves the history, the write
    count and the scroll flag as they are.  With no write so far only the
    end mark is printed. *)
Theorem port80_history_shows_last_writes
  (strcasecmp : list Z -> list Z -> Z) (ds : list Z) (argv : list (list Z))
  (Hfit : Z.of_nat (length ds) < 2 ^ 31)
  (Hargc : (length argv <= 1)%nat) :
  let p := port_80_writes ds port80_reset in
  let r := command_port80 strcasecmp argv p in
  fst r = EC_SUCCESS
  /\ history (snd r) = history p
  /\ writes (snd r) = Z.of_nat (length ds)
  /\ scroll (snd r) = scroll p
  /\ console (snd r)
     = console p
       ++ map HexByte (map u8 (skipn (length ds - 16) ds))
       ++ [NewMark].
Proof.
  destruct (port_80_writes_inv ds Hfit) as (Hw & Hl & Hs & Hh).
  cbn zeta in *.
  set (p := port_80_writes ds port80_reset) in *.
  unfold command_port80.
  destruct (Z.ltb_spec 1 (Z.of_nat (length argv))); [lia|].
  cbn [andb fst snd history writes scroll console].
  rewrite Hw. unfold HISTORY_LEN.
  rewrite (u32_small (Z.of_nat (length ds))) by lia.
  repeat split.
  f_equal. f_equal.
  destruct (Z.ltb_spec 16 (Z.of_nat (length ds))) as [Hbig|Hsmall].
  - rewrite u32_small, to_int_small by lia.
    rewrite (print_history_spec ds (history p));
      [ | lia | lia | exact Hfit | intros k Hk; apply Hh; lia ].
    replace (Z.to_nat (Z.of_nat (length ds) - 16))
      with (length ds - 16)%nat by lia.
    reflexivity.
  - rewrite (print_history_spec ds (history p));
      [ | lia | lia | exact Hfit | intros k Hk; apply Hh; lia ].
    replace (length ds - 16)%nat with 0%nat by lia. reflexivity.
Qed.

Lemma port80_history_shows_last_writes_witness :
  console (snd (command_port80 (fun _ _ => 1) []
                  (port_80_writes (map Z.of_nat (seq 1 18)) port80_reset)))
  = console (port_80_writes (map Z.of_nat (seq 1 18)) port80_reset)
    ++ map HexByte (map Z.of_nat (seq 3 16)) ++ [NewMark].
Proof.
  assert (Hfit : Z.of_nat (length (map Z.of_nat (seq 1 18))) < 2 ^ 31)
    by (vm_compute; reflexivity).
  assert (Hargc : (length (@nil (list Z)) <= 1)%nat) by (cbn; lia).
  destruct (port80_history_shows_last_writes (fun _ _ => 1)
              (map Z.of_nat (seq 1 18)) [] Hfit Hargc)
    as (_ & _ & _ & _ & H).
  rewrite H. reflexivity.
Defined.

(** ** Both interrupts at once *)

(** X17: when the interrupt routine finds the expiry of timer 1 pending
    together with the start trigger, in a reachable state in which timer
    2 runs, the expiry changes nothing: the routine does what it does for
    the trigger alone, and the transfer starts from the free time. *)
Theorem isr_both_pending (line : Z) (s : cec)
  (Hreach : reachable s)
  (Harmed : tcnt2 s <> None) :
  cec_isr true true line s = cec_isr false true line s
  /\ cec_state (cec_isr true true line s) = CEC_STATE_INITIATOR_FREE_TIME
  /\ tcnt2 (cec_isr true true line s) = None
  /\ cec_tx (cec_isr true true line s) = cec_tx s.
Proof.
  pose proof (reachable_cursor_inv s Hreach) as (_ & _ & _ & Ht2 & _).
  destruct (Ht2 Harmed) as [Hidle _].
  assert (E : cec_isr true true line s = cec_isr false true line s).
  { unfold cec_isr, cec_event_timeout. rewrite Hidle. reflexivity. }
  rewrite E. split; [reflexivity|].
  unfold cec_isr, cec_event_tx.
  destruct (enter_state_soft line CEC_STATE_INITIATOR_FREE_TIME
              (tmr2_stop s)) as (g & t & ->).
  repeat split; reflexivity.
Qed.

Lemma isr_both_pending_witness :
  let s := Cec CEC_STATE_IDLE
               (Tx (Msgt (64 :: 1 :: repeat 0 14%nat) 0 0) 2 0 0)
               0 1500 0 None (Some 0) [] in
  cec_isr true true 1 s = cec_isr false true 1 s.
Proof.
  intros s.
  assert (Hreach : reachable s).
  { apply (reach_write (boot 1500) [64; 1] EC_RES_SUCCESS).
    - apply reachable_boot.
    - reflexivity. }
  assert (Harmed : tcnt2 s <> None) by discriminate.
  exact (proj1 (isr_both_pending 1 s Hreach Harmed)).
Defined.

(** ** Free time on a stored clock basis *)

(** The free times are 3 and 5 nominal bit times for every clock basis,
    and in that order as soon as the nominal bit time is not zero. *)
Lemma free_time_multiples b :
  FREE_TIME_RS b = 3 * NOMINAL_BIT_TIME b
  /\ FREE_TIME_NI b = 5 * NOMINAL_BIT_TIME b
  /\ (0 < NOMINAL_BIT_TIME b -> FREE_TIME_RS b < FREE_TIME_NI b).
Proof.
  pose proof (APB1_TICKS_bound b 2400) as H.
  unfold FREE_TIME_RS, FREE_TIME_NI, NOMINAL_BIT_TIME.
  rewrite !u32_small by lia. repeat split. lia.
Qed.

(** What [cec_init] stores for a 32-bit frequency, read as [int] or as
    [uint32_t], is 0 or a basis with a positive nominal bit time. *)
Lemma stored_basis_bit_time (freq : Z) :
  - 2 ^ 31 <= freq < 2 ^ 32 ->
  u32 (Z.quot freq 10000) <> 0 ->
  0 < NOMINAL_BIT_TIME (u32 (Z.quot freq 10000)).
Proof.
  intros Hfreq Hnz.
  unfold NOMINAL_BIT_TIME, APB1_TICKS.
  apply Z.div_str_pos.
  destruct (Z.le_gt_cases 0 freq) as [Hpos|Hneg].
  - rewrite Z.quot_div_nonneg in * by lia.
    assert (0 <= freq / 10000) by (apply Z.div_pos; lia).
    assert (freq / 10000 < 429497) by (apply Z.div_lt_upper_bound; lia).
    rewrite (u32_small (freq / 10000)) in * by lia.
    rewrite u32_small by lia. lia.
  - set (a := - freq) in *.
    assert (Ea : freq = - a) by (unfold a; ring).
    rewrite Ea in *. rewrite Z.quot_opp_l in * by lia.
    rewrite Z.quot_div_nonneg in * by lia.
    assert (0 <= a / 10000) by (apply Z.div_pos; lia).
    assert (a / 10000 < 214749) by (apply Z.div_lt_upper_bound; lia).
    destruct (Z.eq_dec (a / 10000) 0) as [E0|E0].
    { rewrite E0 in Hnz. contradiction Hnz. reflexivity. }
    assert (Eq : u32 (- (a / 10000)) = 2 ^ 32 - a / 10000).
    { unfold u32.
      replace (- (a / 10000)) with ((2 ^ 32 - a / 10000) + (-1) * 2 ^ 32)
        by ring.
      rewrite Z.mod_add by lia. apply Z.mod_small. lia. }
    rewrite Eq.
    assert (Ep : u32 (2400 * (2 ^ 32 - a / 10000))
                 = 2 ^ 32 - 2400 * (a / 10000)).
    { unfold u32.
      replace (2400 * (2 ^ 32 - a / 10000))
        with ((2 ^ 32 - 2400 * (a / 10000)) + 2399 * 2 ^ 32) by ring.
      rewrite Z.mod_add by lia. apply Z.mod_small. lia. }
    rewrite Ep. lia.
Qed.

(** C7: entry to the free-time state drives the line high and arms the
    one-shot timer with the new-initiator free time when the resend
    counter is 0 (a fresh transfer) and with the resend free time when it
    is non-zero; for every non-zero clock basis, that is for every
    non-zero value that [cec_init] stores for a 32-bit frequency (read as
    [int] or as [uint32_t]), the resend free time is 3 nominal bit times,
    the new-initiator free time is 5 nominal bit times, and the former is
    strictly shorter. *)
Theorem free_time_entry_on_stored_basis (line freq : Z) (s : cec)
  (Hfreq : - 2 ^ 31 <= freq < 2 ^ 32)
  (Hstored : apb1_freq_div_10k s = apb1_freq_div_10k (cec_init freq s))
  (Hnz : apb1_freq_div_10k s <> 0) :
  let b := apb1_freq_div_10k s in
  let s' := enter_state line CEC_STATE_INITIATOR_FREE_TIME s in
  cec_state s' = CEC_STATE_INITIATOR_FREE_TIME
  /\ gpio_out s' = 1
  /\ tcnt1 s' = Some (if resends (cec_tx s) =? 0
                      then FREE_TIME_NI b else FREE_TIME_RS b)
  /\ FREE_TIME_RS b = 3 * NOMINAL_BIT_TIME b
  /\ FREE_TIME_NI b = 5 * NOMINAL_BIT_TIME b
  /\ FREE_TIME_RS b < FREE_TIME_NI b.
Proof.
  cbn zeta. cbn [cec_init apb1_freq_div_10k] in Hstored.
  destruct (free_time_multiples (apb1_freq_div_10k s))
    as (Hrs & Hni & Hlt).
  split; [apply enter_state_cec_state|].
  split; [|split; [apply free_time_entry_arms|]].
  - unfold enter_state. cbv beta iota zeta. cbn [Z.leb Z.compare].
    match goal with
    | |- context [if ?c then _ else _] => destruct c
    end; reflexivity.
  - split; [exact Hrs|]. split; [exact Hni|].
    apply Hlt. rewrite Hstored.
    apply stored_basis_bit_time; [exact Hfreq|].
    rewrite <- Hstored. exact Hnz.
Qed.

Lemma free_time_entry_on_stored_basis_witness :
  let s := Cec CEC_STATE_IDLE (Tx (Msgt (repeat 0 16%nat) 0 0) 1 2 0)
               0 1500 1 None None [] in
  tcnt1 (enter_state 1 CEC_STATE_INITIATOR_FREE_TIME s) = Some 108000
  /\ FREE_TIME_RS 1500 < FREE_TIME_NI 1500.
Proof.
  intros s.
  assert (Hfreq : - 2 ^ 31 <= 15000000 < 2 ^ 32) by lia.
  assert (Hstored : apb1_freq_div_10k s
                    = apb1_freq_div_10k (cec_init 15000000 s))
    by reflexivity.
  assert (Hnz : apb1_freq_div_10k s <> 0) by (cbn; discriminate).
  pose proof (free_time_entry_on_stored_basis 1 15000000 s
                Hfreq Hstored Hnz) as H.
  cbn zeta in H. destruct H as (_ & _ & Ht & _ & _ & Hlt).
  split; [rewrite Ht; reflexivity | exact Hlt].
Defined.
